(** * Workflow importer: the import dialog of [web/workflow_importer.js]

    A shallow embedding of the class [WorkflowImportDialog]: the session
    flags ([isOpen], [isProcessing]), the batch loop of [handleFileSelect],
    the extraction client [extractWorkflowFromData] and the graph loader
    adapter [loadWorkflow], followed by the properties the specification
    states about them.

    Conventions of the embedding.
    - JavaScript strings are [string]s (bytes of the UTF-8 encoding).  The
      only characters the code inspects are the ASCII ones of ["image/"],
      ['.'] and ['/'], which never occur inside a multi-byte sequence.
    - A value read from a JSON body is a [JSValue]; numbers are IEEE doubles.
    - A thrown value is an [Error] object carrying its [message].
    - What the browser and the host application provide ([JSON.parse],
      [api.fetchApi], [app.loadGraphData], number formatting) is a [Host]
      record, over which every definition is parameterised.  A promise is
      represented by its settlement; every promise settles.
    - [handleFileSelect] is cut at the [await] of its loop body: what comes
      before it runs in the step that calls the method, what comes after it
      in a later [Settle] step, so that other handlers can run in between.
      The awaits inside [processImageFile] are not steps of their own (see
      [settle]). *)

From Stdlib Require Import String Ascii List Bool Arith Lia.
From Stdlib Require Import PrimFloat DecimalString.
Import ListNotations.
Local Open Scope list_scope.
Local Open Scope string_scope.

Set Implicit Arguments.

(* ================================================================== *)
(** ** JavaScript values *)

Module JS.

#[local] Set Warnings "-register-all".

Inductive JSValue : Type :=
| JUndefined
| JNull
| JBool (b : bool)
| JNum (x : float)
| JStr (s : string)
| JArr (items : list JSValue)
| JObj (fields : list (string * JSValue)).

(** ToBoolean: [undefined], [null], [false], [0], [-0], [NaN] and the empty
    string are falsy, everything else is truthy. *)
Definition truthy (v : JSValue) : bool :=
  match v with
  | JUndefined | JNull => false
  | JBool b => b
  | JNum x => negb (PrimFloat.eqb x 0%float || PrimFloat.is_nan x)
  | JStr s => negb (String.eqb s "")
  | JArr _ | JObj _ => true
  end.

(** [a || b] *)
Definition or_else (a b : JSValue) : JSValue := if truthy a then a else b.

(** [a ?? b] *)
Definition nullish_coalesce (a b : JSValue) : JSValue :=
  match a with
  | JUndefined | JNull => b
  | _ => a
  end.

(** [typeof v === "string"] *)
Definition is_string (v : JSValue) : bool :=
  match v with JStr _ => true | _ => false end.

(** Own property of an object built by [JSON.parse]. *)
Fixpoint lookup (k : string) (fields : list (string * JSValue)) : JSValue :=
  match fields with
  | [] => JUndefined
  | (k', v) :: fields' => if String.eqb k k' then v else lookup k fields'
  end.

(** Does an object built by [JSON.parse] have the own property [k]? *)
Fixpoint has_key (k : string) (fields : list (string * JSValue)) : bool :=
  match fields with
  | [] => false
  | (k', _) :: fields' => String.eqb k k' || has_key k fields'
  end.

(** A thrown [Error] ([TypeError], [SyntaxError], ...): the code only ever
    reads [err.message]. *)
Record Exn : Type := Error { message : string }.

(** Completion of an expression or the settlement of a promise. *)
Inductive Res (A : Type) : Type :=
| Threw (e : Exn)
| Returned (a : A).
Arguments Threw {A} e.
Arguments Returned {A} a.

Definition bind {A B} (m : Res A) (k : A -> Res B) : Res B :=
  match m with
  | Threw e => Threw e
  | Returned a => k a
  end.

(** [try { m } catch (err) { h err }] *)
Definition try_catch {A} (m : Res A) (h : Exn -> Res A) : Res A :=
  match m with
  | Threw e => h e
  | Returned a => Returned a
  end.

(** Decimal rendering of a non-negative integer inside a template literal
    ([${imageFiles.length}], [${response.status}], ...). *)
Definition nat_to_string (n : nat) : string :=
  NilEmpty.string_of_uint (Nat.to_uint n).

(** [arr.join(sep)] on an array of strings. *)
Fixpoint join (sep : string) (l : list string) : string :=
  match l with
  | [] => ""
  | [s] => s
  | s :: l' => s ++ sep ++ join sep l'
  end.

End JS.
Export JS.

Declare Scope res_scope.
Delimit Scope res_scope with res.
Notation "x <- m ;; k" := (bind m (fun x => k))
  (at level 61, m at next level, right associativity) : res_scope.
Notation "'throw' e" := (Threw e) (at level 10) : res_scope.

(* ================================================================== *)
(** ** Files, responses and the host *)

(** A [File] of a [FileList]: the code reads [file.name] and [file.type]. *)
Record File : Type := mkFile { name : string; type : string }.

(** The [Response] of [api.fetchApi]: [response.ok], [response.status] and
    the settlement of [response.json()]. *)
Record Response : Type := mkResponse {
  ok : bool;
  status : nat;
  json : Res JSValue
}.

(** What the surrounding platform provides.  [fetchApi n file] is the
    settlement of the [n]-th call of [api.fetchApi] (counting from 0) when it
    uploads [file]; [loadGraphData n g clean restore_view name] is the
    settlement of the [n]-th call of [app.loadGraphData].  Indexing by the
    call number lets the answers depend on the history.  The two messages
    are those of the engine's [TypeError]s: for reading a property of
    [null] or [undefined], and for an object that cannot be converted to a
    primitive value. *)
Record Host : Type := mkHost {
  Number_toString : float -> string;
  TypeError_message : JSValue -> string -> string;
  ToPrimitive_message : JSValue -> string;
  JSON_parse : string -> Res JSValue;
  fetchApi : nat -> File -> Res Response;
  loadGraphData : nat -> JSValue -> bool -> bool -> string -> Res unit
}.

(** The objects the methods return: [{success, error}] from the loader and
    [{success, error, workflow, prompt, info}] from the extraction client;
    a field that is not set reads as [undefined]. *)
Record Reply : Type := mkReply {
  success : bool;
  error : JSValue;
  workflow : JSValue;
  prompt : JSValue;
  info : JSValue
}.

Definition failure (e : JSValue) : Reply :=
  mkReply false e JUndefined JUndefined JUndefined.

Definition succeeded : Reply :=
  mkReply true JUndefined JUndefined JUndefined JUndefined.

(* ================================================================== *)
(** ** Tab title: [filename.replace(/\.[^/.]+$/, "") || "Imported Workflow"] *)

Module TabName.

(** The class [[^/.]]. *)
Definition not_slash_dot (c : ascii) : bool :=
  negb (Ascii.eqb c "/"%char || Ascii.eqb c "."%char).

Fixpoint all_chars (p : ascii -> bool) (s : string) : bool :=
  match s with
  | EmptyString => true
  | String c s' => p c && all_chars p s'
  end.

(** Does [\.[^/.]+$] match when the match starts at the head of [s]? *)
Definition matches_here (s : string) : bool :=
  match s with
  | String "."%char (String c s') => not_slash_dot c && all_chars not_slash_dot s'
  | _ => false
  end.

(** [s.replace(/\.[^/.]+$/, "")]: the leftmost match is replaced; as the
    pattern is anchored at the end, the match runs to the end of [s]. *)
Fixpoint strip_extension (s : string) : string :=
  match s with
  | EmptyString => EmptyString
  | String c s' => if matches_here s then EmptyString else String c (strip_extension s')
  end.

Definition tabName (filename : string) : string :=
  let stem := strip_extension filename in
  if String.eqb stem "" then "Imported Workflow" else stem.

End TabName.
Export TabName.

(* ================================================================== *)
(** ** The dialog and the world around it *)

(** The status element [this.statusEl]: the style properties and the text
    that [show] and [showStatus] write. *)
Record StatusEl : Type := mkStatusEl {
  display : string;
  textContent : string;
  whiteSpace : string;
  color : string
}.

(** The fields of a [WorkflowImportDialog] that the methods read or write.
    [statusEl] is [null] until [show] has built the dialog. *)
Record Dialog : Type := mkDialog {
  isOpen : bool;
  isProcessing : bool;
  overlay_display : string;
  statusEl : option StatusEl
}.

(** One call of [app.loadGraphData(graphData, clean, restore_view, name)]. *)
Record LoadCall : Type := mkLoadCall {
  graphData : JSValue;
  clean : bool;
  restore_view : bool;
  tab : string
}.

(** The calls made to the collaborators so far, oldest first. *)
Record Calls : Type := mkCalls {
  fetchLog : list File;
  loadLog : list LoadCall
}.

(** An invocation of [handleFileSelect] suspended at
    [await this.processImageFile(file)]: the constant [imageFiles], the file
    of the running iteration with the promise of its [api.fetchApi] call,
    the files the [for ... of] loop has not reached, and the local counters. *)
Record Batch : Type := mkBatch {
  imageFiles : list File;
  current : File;
  pending : Res Response;
  rest : list File;
  successCount : nat;
  failCount : nat;
  errors : list string
}.

(** Values of the locals of an invocation of [handleFileSelect] when it
    leaves its loop.  The code keeps no such record: it is kept here to
    state what a finished batch has counted. *)
Record Outcome : Type := mkOutcome {
  o_imageFiles : list File;
  o_successCount : nat;
  o_failCount : nat;
  o_errors : list string
}.

(** The dialog, the collaborators' call logs, the suspended invocations of
    [handleFileSelect], the delays of the pending [setTimeout(() =>
    this.close(), delay)] callbacks, and the finished batches. *)
Record World : Type := mkWorld {
  dlg : Dialog;
  calls : Calls;
  batches : list Batch;
  timers : list nat;
  completed : list Outcome
}.

Definition with_dlg (f : Dialog -> Dialog) (w : World) : World :=
  mkWorld (f (dlg w)) (calls w) (batches w) (timers w) (completed w).

Definition with_calls (c : Calls) (w : World) : World :=
  mkWorld (dlg w) c (batches w) (timers w) (completed w).

Definition with_batches (f : list Batch -> list Batch) (w : World) : World :=
  mkWorld (dlg w) (calls w) (f (batches w)) (timers w) (completed w).

Definition with_timers (f : list nat -> list nat) (w : World) : World :=
  mkWorld (dlg w) (calls w) (batches w) (f (timers w)) (completed w).

Definition with_completed (o : Outcome) (w : World) : World :=
  mkWorld (dlg w) (calls w) (batches w) (timers w) (completed w ++ [o])%list.

(** [constructor]: closed, idle, nothing built yet. *)
Definition new_dialog : Dialog := mkDialog false false "" None.

Definition new_world : World := mkWorld new_dialog (mkCalls [] []) [] [] [].

(** *** [close], [show], [toggle] *)

Definition close (d : Dialog) : Dialog :=
  mkDialog false false "none" (statusEl d).

Definition show (d : Dialog) : Dialog :=
  mkDialog true false "flex" (Some (mkStatusEl "none" "" "" "#ccc")).

Definition toggle (d : Dialog) : Dialog :=
  if isOpen d then close d else show d.

(** *** [showStatus(message, type)] *)

Definition colors : list (string * string) :=
  [("info", "#ccc"); ("success", "#4CAF50");
   ("warning", "#FF9800"); ("error", "#F44336")].

Fixpoint assoc (k : string) (l : list (string * string)) : option string :=
  match l with
  | [] => None
  | (k', v) :: l' => if String.eqb k k' then Some v else assoc k l'
  end.

(** [colors[type] || colors.info] *)
Definition color_of (type : string) : string :=
  match assoc type colors with
  | Some c => c
  | None => "#ccc"
  end.

(** The element after [showStatus] has written to it. *)
Definition shown (message type : string) : StatusEl :=
  mkStatusEl "block" message "pre-wrap" (color_of type).

Definition showStatus (message type : string) (d : Dialog) : Dialog :=
  match statusEl d with
  | None => d
  | Some _ => mkDialog (isOpen d) (isProcessing d) (overlay_display d)
                       (Some (shown message type))
  end.

Definition set_isProcessing (b : bool) (d : Dialog) : Dialog :=
  mkDialog (isOpen d) b (overlay_display d) (statusEl d).

(** Replacing, appending and removing a suspended invocation. *)
Fixpoint put (i : nat) (b : Batch) (l : list Batch) : list Batch :=
  match l, i with
  | [], _ => [b]
  | _ :: l', 0 => b :: l'
  | x :: l', S i' => x :: put i' b l'
  end.

Fixpoint drop_at {A} (i : nat) (l : list A) : list A :=
  match l, i with
  | [], _ => []
  | _ :: l', 0 => l'
  | x :: l', S i' => x :: drop_at i' l'
  end.

Definition newline : string := String (ascii_of_nat 10) EmptyString.

(* ================================================================== *)
(** ** The methods that talk to the collaborators *)

(** Code that may throw and that calls the collaborators: the call logs are
    threaded through, and a throw keeps the calls made before it. *)
Definition M (A : Type) : Type := Calls -> Res A * Calls.

Definition ret {A} (a : A) : M A := fun c => (Returned a, c).

Definition lift {A} (r : Res A) : M A := fun c => (r, c).

Definition bindM {A B} (m : M A) (k : A -> M B) : M B :=
  fun c =>
    match m c with
    | (Threw e, c') => (Threw e, c')
    | (Returned a, c') => k a c'
    end.

(** [try { m } catch (err) { h err }] around code with effects. *)
Definition try_catchM {A} (m : M A) (h : Exn -> M A) : M A :=
  fun c =>
    match m c with
    | (Threw e, c') => h e c'
    | (Returned a, c') => (Returned a, c')
    end.

Declare Scope m_scope.
Delimit Scope m_scope with M.
Notation "x <~ m ;; k" := (bindM m (fun x => k))
  (at level 61, m at next level, right associativity) : m_scope.

Section Importer.

Variable host : Host.

(** ToString, as a template literal applies it to [result.error].  A value
    built by [JSON.parse] has no symbol keys and no callable properties of
    its own.  An object is converted by the inherited [toString], which gives
    "[object Object]", unless it has an own property [toString]: that one is
    not callable, the inherited [valueOf] returns the object itself (and an
    own [valueOf] is not callable either), so the conversion throws a
    [TypeError].  An array is converted by [join], which converts its
    elements from left to right, [null] and [undefined] to the empty
    string. *)
Fixpoint ToString (v : JSValue) : Res string :=
  match v with
  | JUndefined => Returned "undefined"
  | JNull => Returned "null"
  | JBool true => Returned "true"
  | JBool false => Returned "false"
  | JNum x => Returned (Number_toString host x)
  | JStr s => Returned s
  | JArr items =>
      (fix joined (l : list JSValue) : Res string :=
         let element (x : JSValue) : Res string :=
           match x with
           | JUndefined | JNull => Returned ""
           | _ => ToString x
           end in
         match l with
         | [] => Returned ""
         | [x] => element x
         | x :: l' =>
             (first <- element x ;;
              others <- joined l' ;;
              Returned (first ++ "," ++ others))%res
         end) items
  | JObj fields =>
      if has_key "toString" fields
      then Threw (Error (ToPrimitive_message host v))
      else Returned "[object Object]"
  end.

(** [v.k] for the keys the code reads ([success], [error], [workflow],
    [prompt], [info]): a [TypeError] on [null] and [undefined], the own
    property on an object, [undefined] on a primitive or an array, whose
    prototypes define none of these keys. *)
Definition getProp (v : JSValue) (k : string) : Res JSValue :=
  match v with
  | JUndefined | JNull => Threw (Error (TypeError_message host v k))
  | JObj fields => Returned (lookup k fields)
  | _ => Returned JUndefined
  end.

(** *** [extractWorkflowFromData] *)

(** Up to [await api.fetchApi(...)]: the request is issued; its promise is
    the settlement the host gives to this call. *)
Definition extract_request (file : File) (c : Calls) : Res Response * Calls :=
  (fetchApi host (length (fetchLog c)) file,
   mkCalls (fetchLog c ++ [file])%list (loadLog c)).

(** From the settlement of [api.fetchApi] to the [return]. *)
Definition extract_response (settled : Res Response) : Res Reply :=
  try_catch
    (response <- settled ;;
     if negb (ok response) then
       throw (Error ("Extraction failed: " ++ nat_to_string (status response)))
     else
       result <- json response ;;
       result_success <- getProp result "success" ;;
       if negb (truthy result_success) then
         result_error <- getProp result "error" ;;
         Returned (failure (or_else result_error (JStr "No workflow found in image")))
       else
         result_workflow <- getProp result "workflow" ;;
         result_prompt <- getProp result "prompt" ;;
         result_info <- getProp result "info" ;;
         Returned (mkReply true JUndefined result_workflow result_prompt result_info))%res
    (fun err => Returned (failure (JStr ("Extraction failed: " ++ message err)))).

Definition extractWorkflowFromData (file : File) : M Reply :=
  fun c =>
    let (promise, c') := extract_request file c in
    (extract_response promise, c').

(** *** [loadWorkflow] *)

(** [typeof v === "string" ? JSON.parse(v) : v] *)
Definition parse_if_string (v : JSValue) : Res JSValue :=
  match v with
  | JStr s => JSON_parse host s
  | _ => Returned v
  end.

(** The value of [graphData] when the first [if] statement is left. *)
Definition select_graphData (workflowJson promptJson : JSValue) : Res JSValue :=
  if truthy workflowJson then parse_if_string workflowJson
  else if truthy promptJson then parse_if_string promptJson
  else Returned JNull.

(** [await app.loadGraphData(graphData, true, true, tabName)] *)
Definition app_loadGraphData (g : JSValue) (cl rv : bool) (nm : string) : M unit :=
  fun c =>
    (loadGraphData host (length (loadLog c)) g cl rv nm,
     mkCalls (fetchLog c) (loadLog c ++ [mkLoadCall g cl rv nm])%list).

Definition loadWorkflow (workflowJson promptJson : JSValue) (filename : string)
  : M Reply :=
  try_catchM
    (graph <~ lift (select_graphData workflowJson promptJson) ;;
     if negb (truthy graph) then
       ret (failure (JStr "No valid workflow data found"))
     else
       let tab_name := tabName filename in
       _ <~ app_loadGraphData graph true true tab_name ;;
       ret succeeded)%M
    (fun err => ret (failure (JStr ("Failed to load workflow: " ++ message err)))).

(** *** [processImageFile] *)

(** From the settlement of the extraction request to the [return]. *)
Definition processImageFile_settled (file : File) (promise : Res Response)
  : M Reply :=
  (extractResult <~ lift (extract_response promise) ;;
   if negb (success extractResult) then
     ret (failure (error extractResult))
   else
     loadWorkflow (workflow extractResult) (prompt extractResult) (name file))%M.

Definition processImageFile (file : File) : M Reply :=
  fun c =>
    let (promise, c') := extract_request file c in
    processImageFile_settled file promise c'.

(* ================================================================== *)
(** ** [handleFileSelect] *)

Definition report (message type : string) : World -> World :=
  with_dlg (showStatus message type).

Definition is_image (f : File) : bool := String.prefix "image/" (type f).

(** The statements after the loop: the flag is reset, the final status is
    shown, and a fully successful batch schedules the close. *)
Definition finish (successes failures : nat) (errs : list string) (w : World)
  : World :=
  let w := with_dlg (set_isProcessing false) w in
  if ((0 <? successes) && (failures =? 0))%nat then
    with_timers (fun ts => ts ++ [1500])%list
      (report ("✓ Successfully imported " ++ nat_to_string successes
               ++ " workflow(s)!") "success" w)
  else if ((0 <? successes) && (0 <? failures))%nat then
    report ("Imported " ++ nat_to_string successes ++ " workflow(s), "
            ++ nat_to_string failures ++ " failed:" ++ newline
            ++ join newline errs) "warning" w
  else
    report ("Failed to import workflows:" ++ newline ++ join newline errs)
           "error" w.

(** The head of the [for ... of] loop for the invocation kept at index [i]:
    with a next file, the iteration runs up to its [await] (status line,
    extraction request) and the invocation is suspended; without one, the
    loop is left and the invocation ends in [finish]. *)
Definition loop (i : nat) (imgs remaining : list File) (successes failures : nat)
  (errs : list string) (w : World) : World :=
  match remaining with
  | file :: remaining' =>
      let w := report ("Processing: " ++ name file ++ "...") "info" w in
      let (promise, c) := extract_request file (calls w) in
      with_batches
        (put i (mkBatch imgs file promise remaining' successes failures errs))
        (with_calls c w)
  | [] =>
      finish successes failures errs
        (with_completed (mkOutcome imgs successes failures errs)
           (with_batches (drop_at i) w))
  end.

(** [handleFileSelect(files)] up to its first [await]; [None] is a [files]
    that is [null] or [undefined]. *)
Definition handleFileSelect (files : option (list File)) (w : World) : World :=
  match files with
  | None | Some [] => w
  | Some fs =>
      if isProcessing (dlg w) then
        report "Please wait for current import to complete..." "warning" w
      else
        let imgs := filter is_image fs in
        match imgs with
        | [] => report "No valid image files selected." "error" w
        | _ :: _ =>
            let w := with_dlg (set_isProcessing true) w in
            let w := report ("Processing " ++ nat_to_string (length imgs)
                             ++ " image(s)...") "info" w in
            loop (length (batches w)) imgs imgs 0 0 [] w
        end
  end.

(** The locals [successCount], [failCount] and [errors] of an invocation. *)
Record Counters : Type := mkCounters {
  successes : nat;
  failures : nat;
  lines : list string
}.

(** [successCount++], [failCount++] and [errors.push(line)]. *)
Definition count_success (k : Counters) : Counters :=
  mkCounters (S (successes k)) (failures k) (lines k).

Definition count_failure (k : Counters) : Counters :=
  mkCounters (successes k) (S (failures k)) (lines k).

Definition push_line (line : string) (k : Counters) : Counters :=
  mkCounters (successes k) (failures k) (lines k ++ [line])%list.

(** The statements of the [try] block that follow the [await], on the
    result of [processImageFile].  In the [else] branch [failCount++] runs
    first and the template literal is evaluated next; when rendering
    [result.error] throws, nothing is pushed and the counters stay as the
    increment left them. *)
Definition count_result (file : File) (result : Reply) (k : Counters)
  : Res unit * Counters :=
  if success result then (Returned tt, count_success k)
  else
    let k := count_failure k in
    match ToString (error result) with
    | Threw err => (Threw err, k)
    | Returned text => (Returned tt, push_line (name file ++ ": " ++ text) k)
    end.

(** The handler of the loop body, [catch (err)]: [failCount++] and a line
    with [err.message]. *)
Definition count_thrown (file : File) (err : Exn) (k : Counters) : Counters :=
  push_line (name file ++ ": " ++ message err) (count_failure k).

(** The [try]/[catch] of the loop body from the settlement of
    [processImageFile] on: a throw of the [try] block, from the awaited
    promise or from the statements after it, is handled by the [catch]. *)
Definition iteration (file : File) (settled : Res Reply) (k : Counters)
  : Counters :=
  match settled with
  | Threw err => count_thrown file err k
  | Returned result =>
      match count_result file result k with
      | (Threw err, k') => count_thrown file err k'
      | (Returned _, k') => k'
      end
  end.

(** The invocation at index [i] resumes: [processImageFile] settles, the
    [try]/[catch] of the loop body counts the result, and the loop goes on.
    The awaits inside [processImageFile] ([response.json()],
    [app.loadGraphData]) are not cut into steps of their own: between them
    the invocation touches neither the dialog nor its counters, so a step
    shows the dialog and the counters as the code has them at its next
    suspension, and the call logs as they are once the file is done. *)
Definition settle (i : nat) (w : World) : World :=
  match nth_error (batches w) i with
  | None => w
  | Some b =>
      let file := current b in
      let (settled, c) := processImageFile_settled file (pending b) (calls w) in
      let k := iteration file settled
                 (mkCounters (successCount b) (failCount b) (errors b)) in
      loop i (imageFiles b) (rest b) (successes k) (failures k) (lines k)
           (with_calls c w)
  end.

(** The pending timer at index [i] fires: [() => this.close()]. *)
Definition timeout (i : nat) (w : World) : World :=
  match nth_error (timers w) i with
  | None => w
  | Some _ => with_dlg close (with_timers (drop_at i) w)
  end.

(** What can happen to a dialog: the user's actions, the resumption of a
    suspended invocation, a timer firing. *)
Inductive Event : Type :=
| Toggle
| Show
| Close
| FileSelect (files : option (list File))
| Settle (i : nat)
| Timeout (i : nat).

Definition step (w : World) (e : Event) : World :=
  match e with
  | Toggle => with_dlg toggle w
  | Show => with_dlg show w
  | Close => with_dlg close w
  | FileSelect files => handleFileSelect files w
  | Settle i => settle i w
  | Timeout i => timeout i w
  end.

Definition run (w : World) (es : list Event) : World := fold_left step es w.

(** A batch that nothing interrupts: the call, then one resumption per
    image file. *)
Definition run_batch (files : list File) (w : World) : World :=
  Nat.iter (length (filter is_image files)) (settle (length (batches w)))
           (handleFileSelect (Some files) w).

End Importer.

(* ================================================================== *)
(** ** A sample environment

    A host on which the definitions can be run: a parser that knows three
    JSON texts, a service that answers by file name, and an editor that
    accepts every graph. *)

Module Sample.

Definition parse (s : string) : Res JSValue :=
  if String.eqb s "null" then Returned JNull
  else if String.eqb s "{}" then Returned (JObj [])
  else if String.eqb s "[]" then Returned (JArr [])
  else Threw (Error "Unexpected token in JSON").

Definition graph : JSValue :=
  JObj [("nodes", JArr []); ("links", JArr [])].

Definition api_prompt : JSValue :=
  JObj [("3", JObj [("class_type", JStr "KSampler")])].

Definition body_graph : JSValue :=
  JObj [("success", JBool true); ("workflow", graph); ("prompt", api_prompt)].

Definition body_a1111 : JSValue :=
  JObj [("success", JBool false);
        ("error", JStr "only Automatic1111 parameters found")].

(** A body whose [error] is an object with a key [toString]. *)
Definition body_unrenderable : JSValue :=
  JObj [("success", JBool false);
        ("error", JObj [("toString", JNum 1%float)])].

Definition service (n : nat) (f : File) : Res Response :=
  if String.eqb (name f) "a1111.png" then
    Returned (mkResponse true 200 (Returned body_a1111))
  else if String.eqb (name f) "bad.png" then
    Returned (mkResponse true 200 (Returned body_unrenderable))
  else if String.eqb (name f) "gone.png" then
    Returned (mkResponse false 404 (Threw (Error "Unexpected end of JSON input")))
  else if String.eqb (name f) "offline.png" then
    Threw (Error "Failed to fetch")
  else
    Returned (mkResponse true 200 (Returned body_graph)).

Definition host : Host :=
  mkHost (fun _ => "NaN")
         (fun _ k => "Cannot read properties of null (reading '" ++ k ++ "')")
         (fun _ => "Cannot convert object to primitive value")
         parse service (fun _ _ _ _ _ => Returned tt).

(** A body that reports a failure with an empty [error]. *)
Definition body_empty_error : JSValue :=
  JObj [("success", JBool false); ("error", JStr "")].

Definition png (n : string) : File := mkFile n "image/png".

Definition notes : File := mkFile "notes.txt" "text/plain".

(** A dialog that has been opened once. *)
Definition opened : World := step host new_world Show.

(** A batch succeeds, its timer closes the dialog, and a selection made in
    the file picker meanwhile arrives afterwards. *)
Definition late_selection : list Event :=
  [Show; FileSelect (Some [png "a.png"]); Settle 0; Timeout 0;
   FileSelect (Some [png "b.png"])].

(** The dialog while a one-file batch is in flight. *)
Definition busy : World :=
  step host opened (FileSelect (Some [png "a.png"])).

End Sample.

(* ================================================================== *)
(** ** Predicates used in the statements *)

(** Has [show] built the status element? *)
Definition built (d : Dialog) : bool :=
  match statusEl d with
  | Some _ => true
  | None => false
  end.

(** The session invariant of the specification. *)
Definition processing_implies_open (w : World) : Prop :=
  isProcessing (dlg w) = true -> isOpen (dlg w) = true.

(** A suspended invocation has, for each file before the current one,
    either counted a success or pushed one error line, which starts with
    the name of a file of the batch; [failCount] is at least the number of
    error lines and at most twice that number. *)
Definition error_line (imgs : list File) (line : string) : Prop :=
  exists f reason, In f imgs /\ line = name f ++ ": " ++ reason.

Definition batch_counted (b : Batch) : Prop :=
  exists processed,
    imageFiles b = (processed ++ current b :: rest b)%list
    /\ successCount b + length (errors b) = length processed
    /\ length (errors b) <= failCount b <= 2 * length (errors b)
    /\ Forall (error_line (imageFiles b)) (errors b).

Definition outcome_counted (o : Outcome) : Prop :=
  o_successCount o + length (o_errors o) = length (o_imageFiles o)
  /\ length (o_errors o) <= o_failCount o <= 2 * length (o_errors o)
  /\ Forall (error_line (o_imageFiles o)) (o_errors o).


(** Two dialogs, and two worlds, that differ at most in what the status
    element shows. *)
Definition same_flags (d d' : Dialog) : Prop :=
  isOpen d' = isOpen d
  /\ isProcessing d' = isProcessing d
  /\ overlay_display d' = overlay_display d
  /\ built d' = built d.

Definition same_but_status (w w' : World) : Prop :=
  same_flags (dlg w) (dlg w')
  /\ calls w' = calls w
  /\ batches w' = batches w
  /\ timers w' = timers w
  /\ completed w' = completed w.

(** Every file selection of the trace reaches the dialog while it is open. *)
Fixpoint selects_while_open (host : Host) (w : World) (es : list Event) : Prop :=
  match es with
  | [] => True
  | e :: es' =>
      match e with
      | FileSelect _ => isOpen (dlg w) = true
      | _ => True
      end
      /\ selects_while_open host (step host w e) es'
  end.

(* ================================================================== *)
(** ** Predicates used in the statements about interleavings and calls *)

Definition is_settle (e : Event) : bool :=
  match e with
  | Settle _ => true
  | _ => false
  end.

(** The events that only touch the dialog: the toolbar button and the
    keyboard shortcut ([toggle]), [show] and [close]. *)
Definition is_dialog_event (e : Event) : bool :=
  match e with
  | Toggle | Show | Close => true
  | _ => false
  end.

(** Two worlds with the same work: calls made, suspended invocations,
    pending timers and finished batches. *)
Definition same_work (w w' : World) : Prop :=
  calls w' = calls w
  /\ batches w' = batches w
  /\ timers w' = timers w
  /\ completed w' = completed w.

(** The overlay is displayed exactly while [isOpen] is set, and an open
    dialog has its status element. *)
Definition dialog_consistent (d : Dialog) : Prop :=
  (isOpen d = true -> overlay_display d = "flex" /\ built d = true)
  /\ (isOpen d = false -> overlay_display d <> "flex").

(** What of a dialog is visible apart from the status text. *)
Definition shell (d : Dialog) : bool * string * bool :=
  (isOpen d, overlay_display d, built d).

(** Files a suspended invocation has requested an extraction for: the
    ones it is done with, each a success or an error line, and the current
    one. *)
Definition requested (b : Batch) : nat := S (successCount b + length (errors b)).

(** Files a finished batch has processed: successes and error lines. *)
Definition processed (o : Outcome) : nat := o_successCount o + length (o_errors o).

Definition total {A} (g : A -> nat) (l : list A) : nat := list_sum (map g l).

(** The invariant of the call logs at the steps of the model: every
    extraction request belongs to a file of a batch, every counted success to
    an editor call, and every editor call to a file that is done. *)
Definition accounted (w : World) : Prop :=
  length (fetchLog (calls w))
  = total requested (batches w) + total processed (completed w)
  /\ total successCount (batches w) + total o_successCount (completed w)
     <= length (loadLog (calls w))
  /\ length (loadLog (calls w)) + length (batches w)
     <= length (fetchLog (calls w)).

(** A close timer is pending only for a batch that finished without a
    failure. *)
Definition all_succeeded (o : Outcome) : bool :=
  (0 <? o_successCount o)%nat && (o_failCount o =? 0)%nat.

(* ================================================================== *)
(** * Properties *)

(** ** Tab title *)

Lemma all_chars_app (p : ascii -> bool) (a b : string) :
  all_chars p (a ++ b) = all_chars p a && all_chars p b.
Proof.
  induction a as [|c a IH]; simpl; [reflexivity|].
  now rewrite IH, andb_assoc.
Qed.

Lemma all_chars_through_dot (a b : string) :
  all_chars not_slash_dot (a ++ String "."%char b) = false.
Proof.
  rewrite all_chars_app. simpl. now rewrite andb_false_r.
Qed.

Lemma matches_here_all_chars (s : string) :
  matches_here s = true ->
  exists ext, s = "." ++ ext /\ ext <> "" /\ all_chars not_slash_dot ext = true.
Proof.
  destruct s as [|c s]; simpl; [discriminate|].
  destruct (Ascii.eqb_spec c "."%char) as [->|Hc].
  - destruct s as [|c' s]; [discriminate|]. intros H.
    exists (String c' s). repeat split; [discriminate | exact H].
  - intros H. exfalso.
    destruct c as [[] [] [] [] [] [] [] []]; try discriminate H.
    now apply Hc.
Qed.

Lemma matches_here_extension (ext : string) :
  ext <> "" -> all_chars not_slash_dot ext = true ->
  matches_here ("." ++ ext) = true.
Proof.
  destruct ext as [|c ext]; [congruence|]. intros _ H. exact H.
Qed.

Lemma matches_here_inside (c : ascii) (stem ext : string) :
  matches_here (String c (stem ++ "." ++ ext)) = false.
Proof.
  destruct (matches_here (String c (stem ++ "." ++ ext))) eqn:E; [|reflexivity].
  apply matches_here_all_chars in E as (ext' & Heq & _ & Hall).
  simpl in Heq. injection Heq as _ Heq.
  rewrite <- Heq in Hall. rewrite all_chars_through_dot in Hall. discriminate.
Qed.

Lemma strip_extension_removes (stem ext : string) :
  ext <> "" -> all_chars not_slash_dot ext = true ->
  strip_extension (stem ++ "." ++ ext) = stem.
Proof.
  intros Hne Hall. induction stem as [|c stem IH].
  - change ("" ++ "." ++ ext) with ("." ++ ext).
    pose proof (matches_here_extension Hne Hall) as Hm.
    destruct ext as [|c ext]; [congruence|].
    simpl in *. now rewrite Hm.
  - change (String c stem ++ "." ++ ext) with (String c (stem ++ "." ++ ext)).
    cbn [strip_extension]. rewrite matches_here_inside. now rewrite IH.
Qed.

Lemma strip_extension_keeps (filename : string) :
  (forall stem ext, filename = stem ++ "." ++ ext ->
                    ext = "" \/ all_chars not_slash_dot ext = false) ->
  strip_extension filename = filename.
Proof.
  induction filename as [|c s IH]; intros Hno; [reflexivity|].
  cbn [strip_extension].
  destruct (matches_here (String c s)) eqn:E.
  - apply matches_here_all_chars in E as (ext & Heq & Hne & Hall).
    destruct (Hno "" ext Heq) as [H|H]; congruence.
  - f_equal. apply IH. intros stem ext Heq.
    apply (Hno (String c stem) ext). simpl. now rewrite Heq.
Qed.

(** C8.  The tab title is the file name without its final extension, that
    is without a last ['.'] followed by one or more characters other than
    ['.'] and ['/'], and it is "Imported Workflow" when nothing is left; a
    name with no such extension is kept whole.  "render.final.png" gives
    "render.final" and ".png" gives the default title. *)
Theorem tabName_strips_final_extension :
  (forall stem ext : string,
      ext <> "" -> all_chars not_slash_dot ext = true ->
      tabName (stem ++ "." ++ ext)
      = if String.eqb stem "" then "Imported Workflow" else stem)
  /\ (forall filename : string,
         (forall stem ext, filename = stem ++ "." ++ ext ->
                           ext = "" \/ all_chars not_slash_dot ext = false) ->
         tabName filename
         = if String.eqb filename "" then "Imported Workflow" else filename)
  /\ tabName "render.final.png" = "render.final"
  /\ tabName ".png" = "Imported Workflow".
Proof.
  repeat split.
  - intros stem ext Hne Hall. unfold tabName.
    now rewrite (strip_extension_removes stem Hne Hall).
  - intros filename Hno. unfold tabName.
    now rewrite (strip_extension_keeps Hno).
Qed.

Lemma tabName_strips_final_extension_witness :
  tabName ("photo.v2" ++ "." ++ "webp") = "photo.v2"
  /\ tabName "README" = "README".
Proof.
  destruct tabName_strips_final_extension as (Hext & Hnone & _).
  split.
  - apply (Hext "photo.v2" "webp"); [discriminate | reflexivity].
  - apply (Hnone "README"). intros stem ext Heq. exfalso.
    destruct stem as [|c1 [|c2 [|c3 [|c4 [|c5 [|c6 [|c7 stem]]]]]]];
      simpl in Heq; discriminate Heq.
Defined.

(** ** Extraction client *)

Section ExtractionFacts.

Variable host : Host.

Lemma truthy_JStr (s : string) : truthy (JStr s) = true <-> s <> "".
Proof.
  simpl. destruct (String.eqb_spec s ""); simpl; split; congruence.
Qed.

(** A rejected request, or a body that cannot be read, is reported with the
    message of the exception. *)
Lemma extract_response_transport (e : Exn) (st : nat) :
  extract_response host (Threw e)
  = Returned (failure (JStr ("Extraction failed: " ++ message e)))
  /\ extract_response host (Returned (mkResponse true st (Threw e)))
     = Returned (failure (JStr ("Extraction failed: " ++ message e))).
Proof. split; reflexivity. Qed.

(** No exception leaves [extractWorkflowFromData]. *)
Lemma extract_response_returns (settled : Res Response) :
  exists reply, extract_response host settled = Returned reply.
Proof.
  unfold extract_response.
  destruct settled as [e | [[] st [e | body]]]; simpl; eauto.
  destruct body; simpl; eauto;
    match goal with
    | |- context [truthy ?v] => destruct (truthy v); simpl; eauto
    end.
Qed.

Lemma extractWorkflowFromData_returns (file : File) (c : Calls) :
  exists reply,
    extractWorkflowFromData host file c
    = (Returned reply, mkCalls (fetchLog c ++ [file]) (loadLog c)).
Proof.
  unfold extractWorkflowFromData, extract_request.
  destruct (extract_response_returns (fetchApi host (length (fetchLog c)) file))
    as [reply ->].
  now exists reply.
Qed.

(** C5.  On a response whose status is not a success the extraction
    client returns a failure, but its reason is "Extraction failed:
    Extraction failed: <status>": the error thrown for the status is caught
    by the method's own handler, which puts the prefix a second time.  A
    transport-level exception gives "Extraction failed: <message>", and no
    exception leaves the method. *)
Theorem extract_response_status_prefixed_twice (st : nat) (body : Res JSValue) :
  extract_response host (Returned (mkResponse false st body))
  = Returned (failure (JStr ("Extraction failed: Extraction failed: "
                             ++ nat_to_string st)))
  /\ (forall e, extract_response host (Threw e)
                = Returned (failure (JStr ("Extraction failed: " ++ message e))))
  /\ (forall settled, exists reply,
         extract_response host settled = Returned reply).
Proof.
  split; [reflexivity|]. split.
  - intros e. reflexivity.
  - apply extract_response_returns.
Qed.

(** C6, amended.  On a success status with a body [{success: false, error?}]
    the reason is [error || "No workflow found in image"]: the body's
    [error] when it is truthy, the default text when it is absent or falsy. *)
Theorem extract_response_unsuccessful_body
  (st : nat) (fields : list (string * JSValue)) :
  lookup "success" fields = JBool false ->
  let reply :=
    extract_response host (Returned (mkResponse true st (Returned (JObj fields)))) in
  reply = Returned (failure (or_else (lookup "error" fields)
                               (JStr "No workflow found in image")))
  /\ (truthy (lookup "error" fields) = true ->
      reply = Returned (failure (lookup "error" fields)))
  /\ (truthy (lookup "error" fields) = false ->
      reply = Returned (failure (JStr "No workflow found in image"))).
Proof.
  intros Hs reply.
  assert (E : reply = Returned (failure (or_else (lookup "error" fields)
                                           (JStr "No workflow found in image")))).
  { unfold reply, extract_response. simpl. now rewrite Hs. }
  split; [exact E|]. unfold or_else in E.
  split; intros Ht; now rewrite Ht in E.
Qed.

End ExtractionFacts.

Lemma extract_response_unsuccessful_body_witness :
  extract_response Sample.host
    (Returned (mkResponse true 200 (Returned Sample.body_a1111)))
  = Returned (failure (JStr "only Automatic1111 parameters found")).
Proof.
  apply (extract_response_unsuccessful_body Sample.host 200
           [("success", JBool false);
            ("error", JStr "only Automatic1111 parameters found")]);
    reflexivity.
Defined.

(** With [error: ""] in the body the reason is the default text, where
    [error ?? default] is the empty string. *)
Lemma extract_response_empty_error_counterexample :
  lookup "success" [("success", JBool false); ("error", JStr "")] = JBool false
  /\ extract_response Sample.host
       (Returned (mkResponse true 200 (Returned Sample.body_empty_error)))
     = Returned (failure (JStr "No workflow found in image"))
  /\ extract_response Sample.host
       (Returned (mkResponse true 200 (Returned Sample.body_empty_error)))
     <> Returned (failure (nullish_coalesce
                             (lookup "error" [("success", JBool false);
                                              ("error", JStr "")])
                             (JStr "No workflow found in image"))).
Proof.
  repeat split. discriminate.
Qed.

(** ** Graph loader adapter *)

Section LoaderFacts.

Variable host : Host.

(** What [loadWorkflow] returns once [graphData] holds the truthy value [g]:
    the editor is called with [g] and the derived title, and a throw of the
    editor becomes a failure. *)
Lemma loadWorkflow_selected (wf pr g : JSValue) (fn : string) (c : Calls) :
  select_graphData host wf pr = Returned g -> truthy g = true ->
  loadWorkflow host wf pr fn c
  = (match loadGraphData host (length (loadLog c)) g true true (tabName fn) with
     | Returned _ => Returned succeeded
     | Threw e => Returned (failure (JStr ("Failed to load workflow: " ++ message e)))
     end,
     mkCalls (fetchLog c) (loadLog c ++ [mkLoadCall g true true (tabName fn)])).
Proof.
  intros Hsel Hg.
  unfold loadWorkflow, try_catchM, bindM, lift, ret, app_loadGraphData.
  rewrite Hsel, Hg. simpl.
  now destruct (loadGraphData host (length (loadLog c)) g true true (tabName fn)).
Qed.

Lemma loadWorkflow_falsy_graph (wf pr g : JSValue) (fn : string) (c : Calls) :
  select_graphData host wf pr = Returned g -> truthy g = false ->
  loadWorkflow host wf pr fn c
  = (Returned (failure (JStr "No valid workflow data found")), c).
Proof.
  intros Hsel Hg.
  unfold loadWorkflow, try_catchM, bindM, lift, ret. now rewrite Hsel, Hg.
Qed.

Lemma loadWorkflow_parse_error (wf pr : JSValue) (e : Exn) (fn : string) (c : Calls) :
  select_graphData host wf pr = Threw e ->
  loadWorkflow host wf pr fn c
  = (Returned (failure (JStr ("Failed to load workflow: " ++ message e))), c).
Proof.
  intros Hsel.
  unfold loadWorkflow, try_catchM, bindM, lift, ret. now rewrite Hsel.
Qed.

(** The payload is chosen by truthiness. *)
Lemma select_graphData_workflow (wf pr : JSValue) :
  truthy wf = true -> select_graphData host wf pr = parse_if_string host wf.
Proof. intros H. unfold select_graphData. now rewrite H. Qed.

Lemma select_graphData_prompt (wf pr : JSValue) :
  truthy wf = false -> truthy pr = true ->
  select_graphData host wf pr = parse_if_string host pr.
Proof. intros H1 H2. unfold select_graphData. now rewrite H1, H2. Qed.

Lemma select_graphData_none (wf pr : JSValue) :
  truthy wf = false -> truthy pr = false ->
  select_graphData host wf pr = Returned JNull.
Proof. intros H1 H2. unfold select_graphData. now rewrite H1, H2. Qed.

(** [loadWorkflow] depends on its first two arguments through
    [select_graphData] only. *)
Lemma loadWorkflow_ext (wf pr wf' pr' : JSValue) (fn : string) (c : Calls) :
  select_graphData host wf pr = select_graphData host wf' pr' ->
  loadWorkflow host wf pr fn c = loadWorkflow host wf' pr' fn c.
Proof.
  intros H. unfold loadWorkflow, try_catchM, bindM, lift. now rewrite H.
Qed.

Lemma loadWorkflow_returns (wf pr : JSValue) (fn : string) (c : Calls) :
  exists reply c', loadWorkflow host wf pr fn c = (Returned reply, c').
Proof.
  destruct (select_graphData host wf pr) as [e | g] eqn:Hsel.
  - rewrite (@loadWorkflow_parse_error wf pr e fn c Hsel). eauto.
  - destruct (truthy g) eqn:Hg.
    + rewrite (@loadWorkflow_selected wf pr g fn c Hsel Hg).
      destruct (loadGraphData host _ g true true (tabName fn)); eauto.
    + rewrite (@loadWorkflow_falsy_graph wf pr g fn c Hsel Hg). eauto.
Qed.

(** C7, amended.  A truthy [workflowJson] is the payload and [promptJson] is
    then ignored; with a falsy [workflowJson] a truthy [promptJson] is the
    payload; with both falsy the call fails with "No valid workflow data
    found".  A payload that is an object is handed to the editor as it is,
    a text is parsed first, and a parse failure is returned as the failure
    "Failed to load workflow: <message>"; the call never throws. *)
Theorem loadWorkflow_prefers_truthy_workflow
  (wf pr : JSValue) (fn : string) (c : Calls) :
  (truthy wf = true ->
   forall pr', loadWorkflow host wf pr fn c = loadWorkflow host wf pr' fn c)
  /\ (truthy wf = true -> is_string wf = false ->
      loadWorkflow host wf pr fn c
      = (match loadGraphData host (length (loadLog c)) wf true true (tabName fn) with
         | Returned _ => Returned succeeded
         | Threw e =>
             Returned (failure (JStr ("Failed to load workflow: " ++ message e)))
         end,
         mkCalls (fetchLog c) (loadLog c ++ [mkLoadCall wf true true (tabName fn)])))
  /\ (truthy wf = false -> truthy pr = true ->
      loadWorkflow host wf pr fn c = loadWorkflow host pr JUndefined fn c)
  /\ (truthy wf = false -> truthy pr = false ->
      loadWorkflow host wf pr fn c
      = (Returned (failure (JStr "No valid workflow data found")), c))
  /\ (forall s g,
         wf = JStr s -> s <> "" ->
         JSON_parse host s = Returned g -> truthy g = true ->
         loadLog (snd (loadWorkflow host wf pr fn c))
         = (loadLog c ++ [mkLoadCall g true true (tabName fn)])%list)
  /\ (forall s e,
         wf = JStr s \/ (truthy wf = false /\ pr = JStr s) -> s <> "" ->
         JSON_parse host s = Threw e ->
         loadWorkflow host wf pr fn c
         = (Returned (failure (JStr ("Failed to load workflow: " ++ message e))), c))
  /\ (exists reply c', loadWorkflow host wf pr fn c = (Returned reply, c')).
Proof.
  repeat apply conj.
  - intros Hwf pr'. apply loadWorkflow_ext.
    now rewrite !select_graphData_workflow.
  - intros Hwf Hns. apply loadWorkflow_selected; [|exact Hwf].
    rewrite select_graphData_workflow by exact Hwf.
    destruct wf; try reflexivity; discriminate.
  - intros Hwf Hpr. apply loadWorkflow_ext.
    rewrite select_graphData_prompt by assumption.
    now rewrite select_graphData_workflow.
  - intros Hwf Hpr. apply loadWorkflow_falsy_graph with (g := JNull).
    + now apply select_graphData_none.
    + reflexivity.
  - intros s g -> Hs Hparse Hg.
    rewrite (@loadWorkflow_selected (JStr s) pr g fn c); [reflexivity | | exact Hg].
    rewrite select_graphData_workflow by now apply truthy_JStr.
    exact Hparse.
  - intros s e Hsel Hs Hparse. apply loadWorkflow_parse_error.
    destruct Hsel as [-> | [Hwf ->]].
    + rewrite select_graphData_workflow by now apply truthy_JStr.
      exact Hparse.
    + rewrite select_graphData_prompt; [exact Hparse | exact Hwf |].
      now apply truthy_JStr.
  - apply loadWorkflow_returns.
Qed.

(** C10.  The payload is chosen by truthiness: a [workflowJson] that is
    present but falsy, such as the empty string, is skipped and a truthy
    [promptJson] is what the editor is called with, as it is when it is an
    object and parsed when it is a text, the reply being a success when the
    editor returns; the call is then the one that would be made for
    [promptJson] alone.  And when the chosen text parses to [null] the call
    fails with "No valid workflow data found" and the editor is not
    called. *)
Theorem loadWorkflow_selects_by_truthiness
  (wf pr : JSValue) (fn : string) (c : Calls) :
  (wf <> JUndefined -> truthy wf = false -> truthy pr = true ->
   is_string pr = false ->
   loadWorkflow host wf pr fn c
   = (match loadGraphData host (length (loadLog c)) pr true true (tabName fn) with
      | Returned _ => Returned succeeded
      | Threw e =>
          Returned (failure (JStr ("Failed to load workflow: " ++ message e)))
      end,
      mkCalls (fetchLog c) (loadLog c ++ [mkLoadCall pr true true (tabName fn)])))
  /\ (forall s g,
         wf <> JUndefined -> truthy wf = false ->
         pr = JStr s -> s <> "" ->
         JSON_parse host s = Returned g -> truthy g = true ->
         loadWorkflow host wf pr fn c
         = (match loadGraphData host (length (loadLog c)) g true true (tabName fn) with
            | Returned _ => Returned succeeded
            | Threw e =>
                Returned (failure (JStr ("Failed to load workflow: " ++ message e)))
            end,
            mkCalls (fetchLog c) (loadLog c ++ [mkLoadCall g true true (tabName fn)])))
  /\ (truthy pr = true -> is_string pr = false ->
      loadWorkflow host (JStr "") pr fn c
      = (match loadGraphData host (length (loadLog c)) pr true true (tabName fn) with
         | Returned _ => Returned succeeded
         | Threw e =>
             Returned (failure (JStr ("Failed to load workflow: " ++ message e)))
         end,
         mkCalls (fetchLog c) (loadLog c ++ [mkLoadCall pr true true (tabName fn)])))
  /\ (wf <> JUndefined -> truthy wf = false -> truthy pr = true ->
      loadWorkflow host wf pr fn c = loadWorkflow host pr JUndefined fn c)
  /\ (truthy pr = true ->
      loadWorkflow host (JStr "") pr fn c = loadWorkflow host pr JUndefined fn c)
  /\ (forall s,
         (truthy wf = true /\ wf = JStr s)
         \/ (truthy wf = false /\ truthy pr = true /\ pr = JStr s) ->
         JSON_parse host s = Returned JNull ->
         loadWorkflow host wf pr fn c
         = (Returned (failure (JStr "No valid workflow data found")), c)).
Proof.
  assert (Hskip : forall w, truthy w = false -> truthy pr = true ->
            loadWorkflow host w pr fn c = loadWorkflow host pr JUndefined fn c).
  { intros w Hw Hpr. apply loadWorkflow_ext.
    rewrite select_graphData_prompt by assumption.
    now rewrite select_graphData_workflow. }
  assert (Hobj : forall w, truthy w = false -> truthy pr = true ->
            is_string pr = false ->
            loadWorkflow host w pr fn c
            = (match loadGraphData host (length (loadLog c)) pr true true
                       (tabName fn) with
               | Returned _ => Returned succeeded
               | Threw e =>
                   Returned (failure (JStr ("Failed to load workflow: "
                                            ++ message e)))
               end,
               mkCalls (fetchLog c)
                       (loadLog c ++ [mkLoadCall pr true true (tabName fn)]))).
  { intros w Hw Hpr Hns. apply loadWorkflow_selected; [|exact Hpr].
    rewrite select_graphData_prompt by assumption.
    destruct pr; try reflexivity; discriminate. }
  repeat apply conj.
  - intros _. apply Hobj.
  - intros s g _ Hwf -> Hs Hparse Hg.
    apply loadWorkflow_selected; [|exact Hg].
    rewrite select_graphData_prompt; [exact Hparse | exact Hwf |].
    now apply truthy_JStr.
  - apply Hobj. reflexivity.
  - intros _. apply Hskip.
  - apply Hskip. reflexivity.
  - intros s Hsel Hparse. apply loadWorkflow_falsy_graph with (g := JNull);
      [|reflexivity].
    destruct Hsel as [[Hwf ->] | (Hwf & Hpr & ->)].
    + rewrite select_graphData_workflow by exact Hwf. exact Hparse.
    + rewrite select_graphData_prompt by assumption. exact Hparse.
Qed.

End LoaderFacts.

Lemma loadWorkflow_prefers_truthy_workflow_witness :
  loadWorkflow Sample.host Sample.graph Sample.api_prompt "a.png" (mkCalls [] [])
  = loadWorkflow Sample.host Sample.graph JUndefined "a.png" (mkCalls [] [])
  /\ loadWorkflow Sample.host JNull Sample.api_prompt "a.png" (mkCalls [] [])
     = loadWorkflow Sample.host Sample.api_prompt JUndefined "a.png" (mkCalls [] [])
  /\ loadWorkflow Sample.host JUndefined JUndefined "a.png" (mkCalls [] [])
     = (Returned (failure (JStr "No valid workflow data found")), mkCalls [] [])
  /\ loadWorkflow Sample.host (JStr "{oops") JUndefined "a.png" (mkCalls [] [])
     = (Returned (failure (JStr "Failed to load workflow: Unexpected token in JSON")),
        mkCalls [] []).
Proof.
  repeat apply conj.
  - destruct (loadWorkflow_prefers_truthy_workflow Sample.host Sample.graph
                Sample.api_prompt "a.png" (mkCalls [] [])) as (H & _).
    apply H. reflexivity.
  - destruct (loadWorkflow_prefers_truthy_workflow Sample.host JNull
                Sample.api_prompt "a.png" (mkCalls [] [])) as (_ & _ & H & _).
    apply H; reflexivity.
  - destruct (loadWorkflow_prefers_truthy_workflow Sample.host JUndefined
                JUndefined "a.png" (mkCalls [] [])) as (_ & _ & _ & H & _).
    apply H; reflexivity.
  - destruct (loadWorkflow_prefers_truthy_workflow Sample.host (JStr "{oops")
                JUndefined "a.png" (mkCalls [] [])) as (_ & _ & _ & _ & _ & H & _).
    apply (H "{oops" (Error "Unexpected token in JSON")).
    + left. reflexivity.
    + discriminate.
    + reflexivity.
Defined.

(** An empty [workflow] next to a usable [prompt]: the field is present, yet
    the prompt is what the editor receives. *)
Lemma loadWorkflow_present_workflow_counterexample :
  JStr "" <> JUndefined
  /\ loadWorkflow Sample.host (JStr "") Sample.api_prompt "a.png" (mkCalls [] [])
     = (Returned succeeded,
        mkCalls [] [mkLoadCall Sample.api_prompt true true "a"])
  /\ loadWorkflow Sample.host (JStr "") JUndefined "a.png" (mkCalls [] [])
     <> loadWorkflow Sample.host (JStr "") Sample.api_prompt "a.png" (mkCalls [] []).
Proof.
  repeat apply conj; [discriminate | reflexivity | discriminate].
Qed.

Lemma loadWorkflow_selects_by_truthiness_witness :
  loadWorkflow Sample.host (JBool false) Sample.api_prompt "a.png" (mkCalls [] [])
  = (Returned succeeded,
     mkCalls [] [mkLoadCall Sample.api_prompt true true "a"])
  /\ loadWorkflow Sample.host (JStr "") Sample.api_prompt "a.png" (mkCalls [] [])
     = (Returned succeeded,
        mkCalls [] [mkLoadCall Sample.api_prompt true true "a"])
  /\ loadWorkflow Sample.host JNull (JStr "{}") "a.png" (mkCalls [] [])
     = (Returned succeeded, mkCalls [] [mkLoadCall (JObj []) true true "a"])
  /\ loadWorkflow Sample.host (JStr "null") Sample.api_prompt "a.png" (mkCalls [] [])
     = (Returned (failure (JStr "No valid workflow data found")), mkCalls [] []).
Proof.
  repeat apply conj.
  - destruct (loadWorkflow_selects_by_truthiness Sample.host (JBool false)
                Sample.api_prompt "a.png" (mkCalls [] [])) as (H & _).
    apply H; [discriminate | reflexivity | reflexivity | reflexivity].
  - destruct (loadWorkflow_selects_by_truthiness Sample.host JNull
                Sample.api_prompt "a.png" (mkCalls [] [])) as (_ & _ & H & _).
    apply H; reflexivity.
  - destruct (loadWorkflow_selects_by_truthiness Sample.host JNull
                (JStr "{}") "a.png" (mkCalls [] [])) as (_ & H & _).
    apply (H "{}" (JObj []));
      [discriminate | reflexivity | reflexivity | discriminate
       | reflexivity | reflexivity].
  - destruct (loadWorkflow_selects_by_truthiness Sample.host (JStr "null")
                Sample.api_prompt "a.png" (mkCalls [] []))
      as (_ & _ & _ & _ & _ & H).
    apply (H "null").
    + left. split; reflexivity.
    + reflexivity.
Defined.

(** ** The dialog: status line and guards of [handleFileSelect] *)

Ltac same_tac :=
  unfold same_but_status, same_flags, built in *; simpl in *;
  intuition (try congruence).

Section DialogFacts.

Variable host : Host.

Lemma showStatus_flags (m t : string) (d : Dialog) :
  isOpen (showStatus m t d) = isOpen d
  /\ isProcessing (showStatus m t d) = isProcessing d
  /\ overlay_display (showStatus m t d) = overlay_display d
  /\ built (showStatus m t d) = built d.
Proof. destruct d as [o p od [el|]]; repeat split. Qed.

Lemma showStatus_statusEl (m t : string) (d : Dialog) :
  statusEl (showStatus m t d) = if built d then Some (shown m t) else None.
Proof. now destruct d as [o p od [el|]]. Qed.

Lemma same_flags_refl (d : Dialog) : same_flags d d.
Proof. same_tac. Qed.

Lemma same_but_status_refl (w : World) : same_but_status w w.
Proof. same_tac. Qed.

Lemma same_but_status_trans (w1 w2 w3 : World) :
  same_but_status w1 w2 -> same_but_status w2 w3 -> same_but_status w1 w3.
Proof. same_tac. Qed.

Lemma showStatus_same (m t : string) (d : Dialog) :
  same_flags d (showStatus m t d).
Proof. destruct d as [o p od [el|]]; same_tac. Qed.

Lemma showStatus_cong (m t : string) (d1 d2 : Dialog) :
  same_flags d1 d2 -> same_flags (showStatus m t d1) (showStatus m t d2).
Proof.
  destruct d1 as [o1 p1 od1 [el1|]], d2 as [o2 p2 od2 [el2|]]; same_tac.
Qed.

Lemma report_same (m t : string) (w : World) : same_but_status w (report m t w).
Proof.
  pose proof (showStatus_same m t (dlg w)). same_tac.
Qed.

Lemma report_cong (m t : string) (w1 w2 : World) :
  same_but_status w1 w2 -> same_but_status (report m t w1) (report m t w2).
Proof.
  intros H. pose proof (@showStatus_cong m t (dlg w1) (dlg w2)).
  unfold report, with_dlg. same_tac.
Qed.

Lemma finish_cong (s f : nat) (errs : list string) (w1 w2 : World) :
  same_but_status w1 w2 ->
  same_but_status (finish s f errs w1) (finish s f errs w2).
Proof.
  intros H. unfold finish.
  assert (H' : same_but_status (with_dlg (set_isProcessing false) w1)
                               (with_dlg (set_isProcessing false) w2))
    by same_tac.
  destruct ((0 <? s) && (f =? 0))%nat; [|destruct ((0 <? s) && (0 <? f))%nat].
  - match goal with
    | |- same_but_status (with_timers _ ?a) (with_timers _ ?b) =>
        assert (same_but_status a b) by (now apply report_cong)
    end.
    same_tac.
  - now apply report_cong.
  - now apply report_cong.
Qed.

Lemma loop_cong (i : nat) (imgs remaining : list File) (s f : nat)
  (errs : list string) (w1 w2 : World) :
  same_but_status w1 w2 ->
  same_but_status (loop host i imgs remaining s f errs w1)
                  (loop host i imgs remaining s f errs w2).
Proof.
  intros H. destruct remaining as [|file remaining]; simpl.
  - apply finish_cong. same_tac.
  - pose proof (report_cong ("Processing: " ++ name file ++ "...") "info" H) as H'.
    set (r1 := report _ _ w1) in *. set (r2 := report _ _ w2) in *.
    clearbody r1 r2. same_tac.
Qed.

Lemma handleFileSelect_cong (files : option (list File)) (w1 w2 : World) :
  same_but_status w1 w2 ->
  same_but_status (handleFileSelect host files w1) (handleFileSelect host files w2).
Proof.
  intros H. destruct files as [[|f fs]|]; try exact H.
  unfold handleFileSelect.
  assert (Hp : isProcessing (dlg w2) = isProcessing (dlg w1)) by apply H.
  assert (Hb : batches w2 = batches w1) by apply H.
  rewrite Hp. destruct (isProcessing (dlg w1)).
  - now apply report_cong.
  - destruct (filter is_image (f :: fs)) as [|g gs].
    + now apply report_cong.
    + cbv zeta.
      replace (length (batches (report _ "info" (with_dlg (set_isProcessing true) w2))))
        with (length (batches (report ("Processing " ++ nat_to_string (length (g :: gs))
                                        ++ " image(s)...") "info"
                                      (with_dlg (set_isProcessing true) w1))))
        by (simpl; now rewrite Hb).
      apply loop_cong. apply report_cong. same_tac.
Qed.

Lemma settle_cong (i : nat) (w1 w2 : World) :
  same_but_status w1 w2 ->
  same_but_status (settle host i w1) (settle host i w2).
Proof.
  intros H. unfold settle.
  assert (Hb : batches w2 = batches w1) by apply H.
  assert (Hc : calls w2 = calls w1) by apply H.
  rewrite Hb, Hc. destruct (nth_error (batches w1) i) as [b|]; [|exact H].
  destruct (processImageFile_settled host (current b) (pending b) (calls w1))
    as [[e|r] c]; [|destruct (success r)]; apply loop_cong; same_tac.
Qed.

Lemma timeout_cong (i : nat) (w1 w2 : World) :
  same_but_status w1 w2 ->
  same_but_status (timeout i w1) (timeout i w2).
Proof.
  intros H. unfold timeout.
  assert (Ht : timers w2 = timers w1) by apply H.
  rewrite Ht. destruct (nth_error (timers w1) i); same_tac.
Qed.

Lemma step_cong (e : Event) (w1 w2 : World) :
  same_but_status w1 w2 ->
  same_but_status (step host w1 e) (step host w2 e).
Proof.
  intros H. destruct e; simpl.
  - assert (Ho : isOpen (dlg w2) = isOpen (dlg w1)) by apply H.
    unfold with_dlg, toggle. rewrite Ho. destruct (isOpen (dlg w1)); same_tac.
  - same_tac.
  - same_tac.
  - now apply handleFileSelect_cong.
  - now apply settle_cong.
  - now apply timeout_cong.
Qed.

Lemma run_cong (es : list Event) (w1 w2 : World) :
  same_but_status w1 w2 ->
  same_but_status (run host w1 es) (run host w2 es).
Proof.
  revert w1 w2. induction es as [|e es IH]; intros w1 w2 H; simpl; [exact H|].
  apply IH. now apply step_cong.
Qed.

(** C3, amended.  A selection that is empty or absent is dropped silently:
    nothing changes and no message is shown.  A non-empty selection without
    any [image/] file, submitted while no batch is in flight, shows the
    error "No valid image files selected." and changes nothing else: no
    extraction call, no suspended invocation, [isOpen] and [isProcessing]
    as before. *)
Theorem handleFileSelect_without_images (files : option (list File)) (w : World) :
  (files = None \/ files = Some [] -> handleFileSelect host files w = w)
  /\ (forall fs,
         files = Some fs -> fs <> [] -> filter is_image fs = [] ->
         isProcessing (dlg w) = false ->
         handleFileSelect host files w
         = report "No valid image files selected." "error" w
         /\ same_but_status w (handleFileSelect host files w)
         /\ statusEl (dlg (handleFileSelect host files w))
            = if built (dlg w)
              then Some (shown "No valid image files selected." "error")
              else None).
Proof.
  split.
  - intros [-> | ->]; reflexivity.
  - intros fs -> Hne Himg Hidle.
    assert (E : handleFileSelect host (Some fs) w
                = report "No valid image files selected." "error" w).
    { unfold handleFileSelect. destruct fs as [|f fs]; [congruence|].
      now rewrite Hidle, Himg. }
    rewrite E. repeat split; try apply report_same.
    apply showStatus_statusEl.
Qed.

(** C4, amended.  A non-empty selection submitted while [isProcessing] is
    set shows the warning "Please wait for current import to complete..."
    and changes nothing else: the flags, the call logs, the suspended
    invocations, the timers and the finished batches are as before, and
    whatever happens next, the world evolves as it would have without the
    rejected call, status text apart. *)
Theorem handleFileSelect_while_processing (fs : list File) (w : World) :
  fs <> [] -> isProcessing (dlg w) = true ->
  handleFileSelect host (Some fs) w
  = report "Please wait for current import to complete..." "warning" w
  /\ same_but_status w (handleFileSelect host (Some fs) w)
  /\ statusEl (dlg (handleFileSelect host (Some fs) w))
     = (if built (dlg w)
        then Some (shown "Please wait for current import to complete..." "warning")
        else None)
  /\ forall es : list Event,
       same_but_status (run host w es)
                       (run host (handleFileSelect host (Some fs) w) es).
Proof.
  intros Hne Hbusy.
  assert (E : handleFileSelect host (Some fs) w
              = report "Please wait for current import to complete..." "warning" w).
  { unfold handleFileSelect. destruct fs as [|f fs]; [congruence|].
    now rewrite Hbusy. }
  rewrite E. repeat apply conj; try apply report_same.
  - reflexivity.
  - apply showStatus_statusEl.
  - intros es. apply run_cong, report_same.
Qed.

End DialogFacts.

Lemma handleFileSelect_without_images_witness :
  handleFileSelect Sample.host (Some []) Sample.opened = Sample.opened
  /\ statusEl (dlg (handleFileSelect Sample.host (Some [Sample.notes]) Sample.opened))
     = Some (shown "No valid image files selected." "error").
Proof.
  split.
  - destruct (handleFileSelect_without_images Sample.host (Some []) Sample.opened)
      as (H & _).
    apply H. right. reflexivity.
  - destruct (handleFileSelect_without_images Sample.host (Some [Sample.notes])
                Sample.opened) as (_ & H).
    destruct (H [Sample.notes]) as (_ & _ & Hs);
      [reflexivity | discriminate | reflexivity | reflexivity | exact Hs].
Defined.

(** An empty selection on an open, idle dialog: no image file, and yet no
    validation error is shown, the status element stays hidden and empty.
    And a selection without image files made while a batch is in flight is
    answered by the warning for a busy dialog. *)
Lemma handleFileSelect_empty_selection_counterexample :
  filter is_image (@nil File) = []
  /\ handleFileSelect Sample.host (Some []) Sample.opened = Sample.opened
  /\ handleFileSelect Sample.host None Sample.opened = Sample.opened
  /\ statusEl (dlg (handleFileSelect Sample.host (Some []) Sample.opened))
     = Some (mkStatusEl "none" "" "" "#ccc")
  /\ statusEl (dlg (handleFileSelect Sample.host (Some []) Sample.opened))
     <> Some (shown "No valid image files selected." "error")
  /\ filter is_image [Sample.notes] = []
  /\ statusEl (dlg (handleFileSelect Sample.host (Some [Sample.notes]) Sample.busy))
     = Some (shown "Please wait for current import to complete..." "warning").
Proof.
  repeat split. discriminate.
Qed.

Lemma handleFileSelect_while_processing_witness :
  statusEl (dlg (handleFileSelect Sample.host (Some [Sample.png "b.png"]) Sample.busy))
  = Some (shown "Please wait for current import to complete..." "warning")
  /\ batches (handleFileSelect Sample.host (Some [Sample.png "b.png"]) Sample.busy)
     = batches Sample.busy.
Proof.
  destruct (@handleFileSelect_while_processing Sample.host
              [Sample.png "b.png"] Sample.busy)
    as (_ & Hsame & Hs & _); [discriminate | reflexivity |].
  split; [exact Hs | apply Hsame].
Defined.

(** An empty selection while a batch is in flight: no warning is shown, the
    status line still reads the progress of the running batch. *)
Lemma handleFileSelect_empty_while_processing_counterexample :
  isProcessing (dlg Sample.busy) = true
  /\ handleFileSelect Sample.host (Some []) Sample.busy = Sample.busy
  /\ statusEl (dlg (handleFileSelect Sample.host (Some []) Sample.busy))
     = Some (shown "Processing: a.png..." "info")
  /\ statusEl (dlg (handleFileSelect Sample.host (Some []) Sample.busy))
     <> Some (shown "Please wait for current import to complete..." "warning").
Proof.
  repeat split. discriminate.
Qed.

(** ** The batch loop *)

Section ListFacts.

Lemma nth_error_snoc {A} (pre : list A) (b : A) :
  nth_error (pre ++ [b])%list (length pre) = Some b.
Proof. induction pre as [|x pre IH]; simpl; auto. Qed.

Lemma put_snoc (pre : list Batch) (b b' : Batch) :
  put (length pre) b' (pre ++ [b])%list = (pre ++ [b'])%list.
Proof. induction pre as [|x pre IH]; simpl; [reflexivity | now rewrite IH]. Qed.

Lemma put_end (pre : list Batch) (b : Batch) :
  put (length pre) b pre = (pre ++ [b])%list.
Proof. induction pre as [|x pre IH]; simpl; [reflexivity | now rewrite IH]. Qed.

Lemma drop_at_snoc {A} (pre : list A) (b : A) :
  drop_at (length pre) (pre ++ [b])%list = pre.
Proof. induction pre as [|x pre IH]; simpl; [reflexivity | now rewrite IH]. Qed.




End ListFacts.

Section BatchFacts.

Variable host : Host.

(** The loader leaves the extraction log alone. *)
Lemma loadWorkflow_fetchLog (wf pr : JSValue) (fn : string) (c : Calls) :
  fetchLog (snd (loadWorkflow host wf pr fn c)) = fetchLog c.
Proof.
  destruct (select_graphData host wf pr) as [e | g] eqn:Hsel.
  - now rewrite (@loadWorkflow_parse_error host wf pr e fn c Hsel).
  - destruct (truthy g) eqn:Hg.
    + now rewrite (@loadWorkflow_selected host wf pr g fn c Hsel Hg).
    + now rewrite (@loadWorkflow_falsy_graph host wf pr g fn c Hsel Hg).
Qed.

Lemma processImageFile_settled_fetchLog (file : File) (p : Res Response) (c : Calls) :
  fetchLog (snd (processImageFile_settled host file p c)) = fetchLog c.
Proof.
  unfold processImageFile_settled, bindM, lift.
  destruct (extract_response_returns host p) as [r ->].
  destruct (success r); simpl; [apply loadWorkflow_fetchLog | reflexivity].
Qed.

(** No error escapes the processing of a file. *)
Lemma processImageFile_settled_returns (file : File) (p : Res Response) (c : Calls) :
  exists reply c', processImageFile_settled host file p c = (Returned reply, c').
Proof.
  unfold processImageFile_settled, bindM, lift.
  destruct (extract_response_returns host p) as [r ->].
  destruct (success r); simpl; [apply loadWorkflow_returns | unfold ret; eauto].
Qed.

(** One iteration counts a success, or pushes one error line and counts
    one failure, or two when rendering [result.error] throws. *)
Lemma iteration_counts (file : File) (settled : Res Reply) (k : Counters) :
  (successes (iteration host file settled k) = S (successes k)
   /\ failures (iteration host file settled k) = failures k
   /\ lines (iteration host file settled k) = lines k)
  \/ (successes (iteration host file settled k) = successes k
      /\ (failures (iteration host file settled k) = S (failures k)
          \/ failures (iteration host file settled k) = S (S (failures k)))
      /\ exists reason,
          lines (iteration host file settled k)
          = (lines k ++ [(name file ++ ": " ++ reason)%string])%list).
Proof.
  unfold iteration, count_result, count_thrown.
  destruct settled as [err | result].
  - right. cbn. eauto.
  - destruct (success result).
    + left. cbn. auto.
    + right. destruct (ToString host (error result)) as [err | text]; cbn; eauto.
Qed.

(** One resumption runs one iteration and goes back to the loop head. *)
Lemma settle_counts (i : nat) (w : World) (b : Batch) :
  nth_error (batches w) i = Some b ->
  exists s f errs c,
    settle host i w
    = loop host i (imageFiles b) (rest b) s f errs (with_calls c w)
    /\ fetchLog c = fetchLog (calls w)
    /\ ((s = S (successCount b) /\ f = failCount b /\ errs = errors b)
        \/ (s = successCount b
            /\ (f = S (failCount b) \/ f = S (S (failCount b)))
            /\ exists reason,
                errs = (errors b ++ [(name (current b) ++ ": " ++ reason)%string])%list)).
Proof.
  intros Hn. unfold settle. rewrite Hn.
  pose proof (processImageFile_settled_fetchLog (current b) (pending b) (calls w))
    as Hlog.
  destruct (processImageFile_settled host (current b) (pending b) (calls w))
    as [settled c]; simpl in Hlog.
  do 4 eexists. split; [reflexivity|]. split; [exact Hlog|].
  exact (iteration_counts (current b) settled
           (mkCounters (successCount b) (failCount b) (errors b))).
Qed.

Lemma error_line_here (imgs processed remaining : list File) (f : File)
  (reason : string) :
  imgs = (processed ++ f :: remaining)%list ->
  error_line imgs (name f ++ ": " ++ reason).
Proof.
  intros ->. exists f, reason. split; [|reflexivity].
  apply in_or_app. right. now left.
Qed.

(** The counters after a resumption, for a batch that was counted. *)
Lemma settle_counts_next (b : Batch) (s f : nat) (errs : list string) :
  batch_counted b ->
  (s = S (successCount b) /\ f = failCount b /\ errs = errors b)
  \/ (s = successCount b
      /\ (f = S (failCount b) \/ f = S (S (failCount b)))
      /\ exists reason,
          errs = (errors b ++ [(name (current b) ++ ": " ++ reason)%string])%list) ->
  exists processed,
    imageFiles b = (processed ++ rest b)%list
    /\ s + length errs = length processed
    /\ length errs <= f <= 2 * length errs
    /\ Forall (error_line (imageFiles b)) errs.
Proof.
  intros (processed & Himgs & Hsum & Hlen & Hlines) Hnext.
  exists (processed ++ [current b])%list.
  rewrite <- app_assoc. simpl. split; [exact Himgs|].
  rewrite length_app. simpl.
  destruct Hnext as [(-> & -> & ->) | (-> & Hf & reason & ->)].
  - repeat split; [lia | lia | lia | exact Hlines].
  - rewrite length_app. simpl. repeat split; try lia.
    apply Forall_app. split; [exact Hlines|].
    constructor; [|constructor].
    eapply error_line_here. exact Himgs.
Qed.

End BatchFacts.

Section BatchRun.

Variable host : Host.

Lemma finish_keeps (s f : nat) (errs : list string) (w : World) :
  batches (finish s f errs w) = batches w
  /\ completed (finish s f errs w) = completed w
  /\ calls (finish s f errs w) = calls w.
Proof.
  unfold finish.
  destruct ((0 <? s) && (f =? 0))%nat; [|destruct ((0 <? s) && (0 <? f))%nat];
    repeat split.
Qed.






(** With a next file the loop head shows its name, requests its extraction
    and suspends the invocation at index [i]. *)
Lemma loop_suspends (i : nat) (imgs r : list File) (file : File) (s f : nat)
  (errs : list string) (w : World) :
  same_flags (dlg w) (dlg (loop host i imgs (file :: r) s f errs w))
  /\ batches (loop host i imgs (file :: r) s f errs w)
     = put i (mkBatch imgs file (fetchApi host (length (fetchLog (calls w))) file)
                      r s f errs) (batches w)
  /\ timers (loop host i imgs (file :: r) s f errs w) = timers w
  /\ completed (loop host i imgs (file :: r) s f errs w) = completed w
  /\ fetchLog (calls (loop host i imgs (file :: r) s f errs w))
     = (fetchLog (calls w) ++ [file])%list
  /\ loadLog (calls (loop host i imgs (file :: r) s f errs w)) = loadLog (calls w).
Proof.
  unfold loop, report, extract_request, with_batches, with_calls, with_dlg.
  cbn [dlg calls batches timers completed fetchLog loadLog].
  split; [apply showStatus_same | repeat split].
Qed.

Lemma same_flags_trans (d1 d2 d3 : Dialog) :
  same_flags d1 d2 -> same_flags d2 d3 -> same_flags d1 d3.
Proof. same_tac. Qed.

(** A suspended invocation that is resumed once per remaining file, with
    nothing in between, reaches [finish] having requested an extraction for
    each file it had left. *)
Lemma settle_until_done (n : nat) :
  forall (b : Batch) (pre : list Batch) (w : World),
    length (rest b) = n ->
    batches w = (pre ++ [b])%list ->
    batch_counted b ->
    exists o mid,
      Nat.iter (S n) (settle host (length pre)) w
      = finish (o_successCount o) (o_failCount o) (o_errors o)
               (with_completed o mid)
      /\ o_imageFiles o = imageFiles b
      /\ outcome_counted o
      /\ same_flags (dlg w) (dlg mid)
      /\ batches mid = pre
      /\ timers mid = timers w
      /\ completed mid = completed w
      /\ fetchLog (calls mid) = (fetchLog (calls w) ++ rest b)%list.
Proof.
  induction n as [|n IH]; intros b pre w Hrest Hbatches Hb.
  - assert (Hn : nth_error (batches w) (length pre) = Some b)
      by (rewrite Hbatches; apply nth_error_snoc).
    destruct (settle_counts host _ w Hn) as (s & f & errs & c & Hstep & Hlog & Hnext).
    destruct (settle_counts_next Hb Hnext) as (processed & H1 & H2 & H3 & H4).
    destruct (rest b) as [|x r] eqn:Er; [|discriminate].
    rewrite app_nil_r in H1. subst processed.
    exists (mkOutcome (imageFiles b) s f errs),
           (with_batches (drop_at (length pre)) (with_calls c w)).
    simpl Nat.iter. rewrite Hstep. simpl.
    split; [reflexivity|]. split; [reflexivity|].
    split; [split; [exact H2 | split; [exact H3 | exact H4]]|].
    split; [apply same_flags_refl|].
    split; [rewrite Hbatches; apply drop_at_snoc|].
    split; [reflexivity|]. split; [reflexivity|].
    now rewrite Hlog, app_nil_r.
  - assert (Hn : nth_error (batches w) (length pre) = Some b)
      by (rewrite Hbatches; apply nth_error_snoc).
    destruct (settle_counts host _ w Hn) as (s & f & errs & c & Hstep & Hlog & Hnext).
    destruct (settle_counts_next Hb Hnext) as (processed & H1 & H2 & H3 & H4).
    destruct (rest b) as [|file r] eqn:Er; [discriminate|].
    rewrite Nat.iter_succ_r, Hstep.
    destruct (loop_suspends (length pre) (imageFiles b) r file s f errs
                (with_calls c w)) as (L1 & L2 & L3 & L4 & L5 & L6).
    set (w1 := loop host (length pre) (imageFiles b) (file :: r) s f errs
                 (with_calls c w)) in *.
    set (b1 := mkBatch (imageFiles b) file
                 (fetchApi host (length (fetchLog (calls (with_calls c w)))) file)
                 r s f errs) in *.
    assert (Hb1 : batches w1 = (pre ++ [b1])%list).
    { rewrite L2. cbn [batches with_calls]. rewrite Hbatches. apply put_snoc. }
    assert (Hc1 : batch_counted b1).
    { exists processed. subst b1. cbn [imageFiles current rest successCount
                                       failCount errors].
      split; [exact H1|]. split; [exact H2|]. split; [exact H3 | exact H4]. }
    destruct (IH b1 pre w1) as (o & mid & E & Ho & Hoc & Hf & Hbm & Ht & Hcm & Hlm);
      [subst b1; simpl in *; lia | exact Hb1 | exact Hc1 |].
    exists o, mid. split; [exact E|].
    split; [exact Ho|]. split; [exact Hoc|].
    split; [exact (same_flags_trans L1 Hf)|].
    split; [exact Hbm|].
    split; [now rewrite Ht, L3|].
    split; [now rewrite Hcm, L4|].
    rewrite Hlm, L5. cbn [calls with_calls rest b1].
    now rewrite Hlog, <- app_assoc.
Qed.

End BatchRun.

Section BatchOutcome.

Variable host : Host.

Lemma handleFileSelect_starts (fs : list File) (g : File) (gs : list File) (w : World) :
  isProcessing (dlg w) = false ->
  filter is_image fs = g :: gs ->
  handleFileSelect host (Some fs) w
  = loop host (length (batches w)) (g :: gs) (g :: gs) 0 0 []
         (report ("Processing " ++ nat_to_string (length (g :: gs)) ++ " image(s)...")
                 "info" (with_dlg (set_isProcessing true) w)).
Proof.
  intros Hidle Himgs. destruct fs as [|f fs]; [discriminate|].
  unfold handleFileSelect. now rewrite Hidle, Himgs.
Qed.

(** What the statements after the loop leave behind. *)
Lemma finish_shows (s f : nat) (errs : list string) (w : World) :
  isProcessing (dlg (finish s f errs w)) = false
  /\ isOpen (dlg (finish s f errs w)) = isOpen (dlg w)
  /\ (0 < s -> f = 0 ->
      statusEl (dlg (finish s f errs w))
      = (if built (dlg w)
         then Some (shown ("✓ Successfully imported " ++ nat_to_string s
                           ++ " workflow(s)!") "success")
         else None)
      /\ timers (finish s f errs w) = (timers w ++ [1500])%list)
  /\ (0 < s -> 0 < f ->
      statusEl (dlg (finish s f errs w))
      = (if built (dlg w)
         then Some (shown ("Imported " ++ nat_to_string s ++ " workflow(s), "
                           ++ nat_to_string f ++ " failed:" ++ newline
                           ++ join newline errs) "warning")
         else None)
      /\ timers (finish s f errs w) = timers w)
  /\ (s = 0 ->
      statusEl (dlg (finish s f errs w))
      = (if built (dlg w)
         then Some (shown ("Failed to import workflows:" ++ newline
                           ++ join newline errs) "error")
         else None)
      /\ timers (finish s f errs w) = timers w).
Proof.
  unfold finish, report, with_timers, with_dlg.
  destruct (Nat.ltb_spec 0 s) as [Hs | Hs];
    destruct (Nat.eqb_spec f 0) as [Hf | Hf];
    destruct (Nat.ltb_spec 0 f) as [Hf' | Hf']; try lia;
    cbn [andb dlg timers];
    match goal with
    | |- context [showStatus ?m ?t ?d] =>
        destruct (showStatus_flags m t d) as (F1 & F2 & _ & _);
        pose proof (showStatus_statusEl m t d) as F3
    end;
    rewrite F1, F2; cbn [isOpen isProcessing set_isProcessing] in *;
    repeat split; intros; try lia; try exact F3.
Qed.

(** A batch that runs without interruption ends in [finish], with one
    extraction request per image file. *)
Lemma run_batch_finishes (files : list File) (w : World) :
  isProcessing (dlg w) = false ->
  filter is_image files <> [] ->
  exists o mid,
    run_batch host files w
    = finish (o_successCount o) (o_failCount o) (o_errors o) (with_completed o mid)
    /\ o_imageFiles o = filter is_image files
    /\ outcome_counted o
    /\ isOpen (dlg mid) = isOpen (dlg w)
    /\ built (dlg mid) = built (dlg w)
    /\ batches mid = batches w
    /\ timers mid = timers w
    /\ completed mid = completed w
    /\ fetchLog (calls mid) = (fetchLog (calls w) ++ filter is_image files)%list.
Proof.
  intros Hidle Hne. unfold run_batch.
  destruct (filter is_image files) as [|g gs] eqn:Himgs; [congruence|].
  rewrite (handleFileSelect_starts files w Hidle Himgs).
  set (w0 := report _ "info" (with_dlg (set_isProcessing true) w)).
  assert (H0 : same_flags (dlg (with_dlg (set_isProcessing true) w)) (dlg w0))
    by apply showStatus_same.
  destruct (loop_suspends host (length (batches w)) (g :: gs) gs g 0 0 [] w0)
    as (L1 & L2 & L3 & L4 & L5 & L6).
  set (w1 := loop host (length (batches w)) (g :: gs) (g :: gs) 0 0 [] w0) in *.
  set (b0 := mkBatch (g :: gs) g (fetchApi host (length (fetchLog (calls w0))) g)
                     gs 0 0 []) in *.
  assert (Hb : batches w1 = (batches w ++ [b0])%list).
  { rewrite L2. change (batches w0) with (batches w). apply put_end. }
  assert (Hc : batch_counted b0).
  { exists []. subst b0. cbn. repeat split; constructor. }
  destruct (@settle_until_done host (length gs) b0 (batches w) w1)
    as (o & mid & E & Ho & Hoc & Hf & Hbm & Ht & Hcm & Hlm);
    [reflexivity | exact Hb | exact Hc |].
  exists o, mid. change (length (g :: gs)) with (S (length gs)).
  split; [exact E|]. split; [exact Ho|]. split; [exact Hoc|].
  pose proof (same_flags_trans H0 (same_flags_trans L1 Hf)) as (B1 & _ & _ & B4).
  split; [exact B1|]. split; [exact B4|]. split; [exact Hbm|].
  split; [now rewrite Ht, L3|]. split; [now rewrite Hcm, L4|].
  rewrite Hlm, L5. change (calls w0) with (calls w).
  change (rest b0) with gs. now rewrite <- app_assoc.
Qed.



(** C2.  After a batch that ran to its end, [isProcessing] is reset and the
    status depends on the counts.  Successes only: the success message is
    shown and one timer of 1500 ms is pending, whose firing closes the
    dialog.  Successes and failures: the warning with both counts and the
    error lines, one per file that did not succeed, is shown, no timer is
    added and [isOpen] is as before.  No success: the error message with one
    line per file is shown, no timer is added and [isOpen] is as before. *)
Theorem handleFileSelect_final_status (files : list File) (w : World) :
  isProcessing (dlg w) = false ->
  filter is_image files <> [] ->
  exists o,
    completed (run_batch host files w) = (completed w ++ [o])%list
    /\ isProcessing (dlg (run_batch host files w)) = false
    /\ (0 < o_successCount o -> o_failCount o = 0 ->
        statusEl (dlg (run_batch host files w))
        = (if built (dlg w)
           then Some (shown ("✓ Successfully imported "
                             ++ nat_to_string (o_successCount o)
                             ++ " workflow(s)!") "success")
           else None)
        /\ timers (run_batch host files w) = (timers w ++ [1500])%list
        /\ isOpen (dlg (timeout (length (timers w)) (run_batch host files w))) = false
        /\ isProcessing (dlg (timeout (length (timers w)) (run_batch host files w)))
           = false)
    /\ (0 < o_successCount o -> 0 < o_failCount o ->
        statusEl (dlg (run_batch host files w))
        = (if built (dlg w)
           then Some (shown ("Imported " ++ nat_to_string (o_successCount o)
                             ++ " workflow(s), " ++ nat_to_string (o_failCount o)
                             ++ " failed:" ++ newline
                             ++ join newline (o_errors o)) "warning")
           else None)
        /\ o_successCount o + length (o_errors o) = length (filter is_image files)
        /\ timers (run_batch host files w) = timers w
        /\ isOpen (dlg (run_batch host files w)) = isOpen (dlg w))
    /\ (o_successCount o = 0 ->
        statusEl (dlg (run_batch host files w))
        = (if built (dlg w)
           then Some (shown ("Failed to import workflows:" ++ newline
                             ++ join newline (o_errors o)) "error")
           else None)
        /\ length (o_errors o) = length (filter is_image files)
        /\ timers (run_batch host files w) = timers w
        /\ isOpen (dlg (run_batch host files w)) = isOpen (dlg w)).
Proof.
  intros Hidle Hne.
  destruct (run_batch_finishes files w Hidle Hne)
    as (o & mid & E & Ho & (Hsum & Hlen & _) & Hopen & Hbuilt & _ & Ht & Hc & _).
  destruct (finish_keeps (o_successCount o) (o_failCount o) (o_errors o)
              (with_completed o mid)) as (_ & K2 & _).
  destruct (finish_shows (o_successCount o) (o_failCount o) (o_errors o)
              (with_completed o mid)) as (F1 & F2 & F3 & F4 & F5).
  cbn [dlg timers with_completed] in F2, F3, F4, F5.
  rewrite Hbuilt, Ht in *. rewrite Hopen in F2.
  exists o. rewrite E, K2. cbn [completed with_completed]. rewrite Hc.
  split; [reflexivity|]. split; [exact F1|]. split; [|split].
  - intros Hs Hf. destruct (F3 Hs Hf) as (S1 & S2).
    split; [exact S1|]. split; [exact S2|].
    unfold timeout. rewrite S2, nth_error_snoc. split; reflexivity.
  - intros Hs Hf. destruct (F4 Hs Hf) as (S1 & S2).
    rewrite <- Ho. repeat split; assumption.
  - intros Hs. destruct (F5 Hs) as (S1 & S2).
    repeat split; try assumption. rewrite <- Ho. lia.
Qed.

End BatchOutcome.



Lemma handleFileSelect_final_status_witness :
  (timers (run_batch Sample.host [Sample.png "a.png"; Sample.png "b.png"]
             Sample.opened) = [1500]
   /\ isProcessing (dlg (run_batch Sample.host
                           [Sample.png "a.png"; Sample.png "b.png"]
                           Sample.opened)) = false
   /\ isOpen (dlg (timeout 0 (run_batch Sample.host
                                [Sample.png "a.png"; Sample.png "b.png"]
                                Sample.opened))) = false)
  /\ (timers (run_batch Sample.host [Sample.png "a.png"; Sample.png "gone.png"]
                Sample.opened) = []
      /\ isOpen (dlg (run_batch Sample.host
                        [Sample.png "a.png"; Sample.png "gone.png"]
                        Sample.opened)) = true)
  /\ (timers (run_batch Sample.host [Sample.png "offline.png"] Sample.opened) = []
      /\ isOpen (dlg (run_batch Sample.host [Sample.png "offline.png"]
                        Sample.opened)) = true)
  /\ statusEl (dlg (run_batch Sample.host
                      [Sample.png "a.png"; Sample.png "bad.png"] Sample.opened))
     = Some (shown ("Imported 1 workflow(s), 2 failed:" ++ newline
                    ++ "bad.png: Cannot convert object to primitive value")
                   "warning").
Proof.
  repeat apply conj.
  - destruct (@handleFileSelect_final_status Sample.host
                [Sample.png "a.png"; Sample.png "b.png"] Sample.opened)
      as (o & Hc & _ & H & _); [reflexivity | discriminate |].
    vm_compute in Hc. injection Hc as <-.
    destruct H as (_ & H & _); [simpl; lia | reflexivity | exact H].
  - destruct (@handleFileSelect_final_status Sample.host
                [Sample.png "a.png"; Sample.png "b.png"] Sample.opened)
      as (o & _ & H & _); [reflexivity | discriminate | exact H].
  - destruct (@handleFileSelect_final_status Sample.host
                [Sample.png "a.png"; Sample.png "b.png"] Sample.opened)
      as (o & Hc & _ & H & _); [reflexivity | discriminate |].
    vm_compute in Hc. injection Hc as <-.
    destruct H as (_ & _ & H & _); [simpl; lia | reflexivity | exact H].
  - destruct (@handleFileSelect_final_status Sample.host
                [Sample.png "a.png"; Sample.png "gone.png"] Sample.opened)
      as (o & Hc & _ & _ & H & _); [reflexivity | discriminate |].
    vm_compute in Hc. injection Hc as <-.
    destruct H as (_ & _ & H & _); [simpl; lia | simpl; lia | exact H].
  - destruct (@handleFileSelect_final_status Sample.host
                [Sample.png "a.png"; Sample.png "gone.png"] Sample.opened)
      as (o & Hc & _ & _ & H & _); [reflexivity | discriminate |].
    vm_compute in Hc. injection Hc as <-.
    destruct H as (_ & _ & _ & H); [simpl; lia | simpl; lia | exact H].
  - destruct (@handleFileSelect_final_status Sample.host
                [Sample.png "offline.png"] Sample.opened)
      as (o & Hc & _ & _ & _ & H); [reflexivity | discriminate |].
    vm_compute in Hc. injection Hc as <-.
    destruct H as (_ & _ & H & _); [reflexivity | exact H].
  - destruct (@handleFileSelect_final_status Sample.host
                [Sample.png "offline.png"] Sample.opened)
      as (o & Hc & _ & _ & _ & H); [reflexivity | discriminate |].
    vm_compute in Hc. injection Hc as <-.
    destruct H as (_ & _ & _ & H); [reflexivity | exact H].
  - destruct (@handleFileSelect_final_status Sample.host
                [Sample.png "a.png"; Sample.png "bad.png"] Sample.opened)
      as (o & Hc & _ & _ & H & _); [reflexivity | discriminate |].
    vm_compute in Hc. injection Hc as <-.
    destruct H as (H & _); [simpl; lia | simpl; lia | exact H].
Defined.

(** ** The session flags *)

Section SessionFacts.

Variable host : Host.

Lemma loop_flags (i : nat) (imgs remaining : list File) (s f : nat)
  (errs : list string) (w : World) :
  isOpen (dlg (loop host i imgs remaining s f errs w)) = isOpen (dlg w)
  /\ (isProcessing (dlg (loop host i imgs remaining s f errs w)) = false
      \/ isProcessing (dlg (loop host i imgs remaining s f errs w))
         = isProcessing (dlg w)).
Proof.
  destruct remaining as [|file r].
  - unfold loop.
    destruct (finish_shows s f errs
                (with_completed (mkOutcome imgs s f errs)
                   (with_batches (drop_at i) w))) as (F1 & F2 & _).
    split; [exact F2 | left; exact F1].
  - destruct (loop_suspends host i imgs r file s f errs w) as ((A1 & A2 & _) & _).
    split; [exact A1 | right; exact A2].
Qed.

Lemma handleFileSelect_isOpen (files : option (list File)) (w : World) :
  isOpen (dlg (handleFileSelect host files w)) = isOpen (dlg w).
Proof.
  destruct files as [[|f fs]|]; try reflexivity.
  unfold handleFileSelect. destruct (isProcessing (dlg w)).
  - apply (report_same _ _ w).
  - destruct (filter is_image (f :: fs)) as [|g gs].
    + apply (report_same _ _ w).
    + cbv zeta.
      match goal with
      | |- isOpen (dlg (loop _ ?i ?a ?b ?c ?d ?e ?w0)) = _ =>
          destruct (loop_flags i a b c d e w0) as (-> & _)
      end.
      apply (report_same _ _ (with_dlg (set_isProcessing true) w)).
Qed.

Lemma settle_flags (i : nat) (w : World) :
  isOpen (dlg (settle host i w)) = isOpen (dlg w)
  /\ (isProcessing (dlg (settle host i w)) = false
      \/ isProcessing (dlg (settle host i w)) = isProcessing (dlg w)).
Proof.
  destruct (nth_error (batches w) i) as [b|] eqn:Hn.
  - destruct (settle_counts host i w Hn) as (s & f & errs & c & -> & _).
    apply (loop_flags i (imageFiles b) (rest b) s f errs (with_calls c w)).
  - unfold settle. rewrite Hn. auto.
Qed.

(** Each event keeps the invariant, a file selection provided the dialog
    is open when it arrives. *)
Lemma step_keeps_invariant (w : World) (e : Event) :
  processing_implies_open w ->
  (forall files, e = FileSelect files -> isOpen (dlg w) = true) ->
  processing_implies_open (step host w e).
Proof.
  unfold processing_implies_open. intros Hinv Hsel. destruct e; simpl.
  - unfold toggle. destruct (isOpen (dlg w)); simpl; auto; discriminate.
  - auto.
  - discriminate.
  - intros _. rewrite handleFileSelect_isOpen. now apply (Hsel files).
  - destruct (settle_flags i w) as (-> & [-> | ->]); [discriminate | exact Hinv].
  - unfold timeout. destruct (nth_error (timers w) i); [discriminate | exact Hinv].
Qed.

Lemma run_keeps_invariant (es : list Event) :
  forall w : World,
    processing_implies_open w ->
    selects_while_open host w es ->
    processing_implies_open (run host w es).
Proof.
  induction es as [|e es IH]; intros w Hinv Hsel; [exact Hinv|].
  destruct Hsel as [He Hrest]. simpl. apply IH; [|exact Hrest].
  apply step_keeps_invariant; [exact Hinv|].
  intros files ->. exact He.
Qed.

(** C9, amended.  [close()] clears [isOpen] and [isProcessing] whatever the
    state, also while a batch is in flight.  [isProcessing] implies [isOpen]
    in every state reached from the constructor by toggles, shows, closes,
    resumptions, timers, and file selections that arrive while the dialog is
    open; each such event keeps the invariant. *)
Theorem close_resets_and_invariant_while_open :
  (forall w : World,
      isOpen (dlg (step host w Close)) = false
      /\ isProcessing (dlg (step host w Close)) = false
      /\ batches (step host w Close) = batches w)
  /\ (forall (w : World) (e : Event),
         processing_implies_open w ->
         (forall files, e = FileSelect files -> isOpen (dlg w) = true) ->
         processing_implies_open (step host w e))
  /\ (forall es : list Event,
         selects_while_open host new_world es ->
         processing_implies_open (run host new_world es)).
Proof.
  repeat apply conj.
  - intros w. repeat split.
  - apply step_keeps_invariant.
  - intros es Hsel. apply run_keeps_invariant; [|exact Hsel].
    unfold processing_implies_open. discriminate.
Qed.

End SessionFacts.

Lemma close_resets_and_invariant_while_open_witness :
  selects_while_open Sample.host new_world
    [Show; FileSelect (Some [Sample.png "a.png"]); Close; Settle 0]
  /\ isProcessing (dlg (run Sample.host new_world
                          [Show; FileSelect (Some [Sample.png "a.png"])])) = true
  /\ isOpen (dlg (run Sample.host new_world
                    [Show; FileSelect (Some [Sample.png "a.png"])])) = true
  /\ isProcessing (dlg (run Sample.host new_world
                          [Show; FileSelect (Some [Sample.png "a.png"]); Close]))
     = false.
Proof.
  destruct (close_resets_and_invariant_while_open Sample.host) as (Hclose & _ & Hrun).
  assert (Hsel : selects_while_open Sample.host new_world
                   [Show; FileSelect (Some [Sample.png "a.png"]); Close; Settle 0])
    by (simpl; repeat split).
  split; [exact Hsel|]. split; [reflexivity|]. split.
  - apply (Hrun [Show; FileSelect (Some [Sample.png "a.png"])]).
    + simpl; repeat split.
    + reflexivity.
  - apply (Hclose (run Sample.host new_world
                     [Show; FileSelect (Some [Sample.png "a.png"])])).
Defined.

(** A selection that reaches a closed dialog starts a batch all the same:
    after a successful batch the timer closes the dialog, and a selection
    made in the file picker meanwhile sets [isProcessing] on the closed
    dialog; so does a selection handed to a dialog that was never shown. *)
Lemma late_selection_counterexample :
  isProcessing (dlg (run Sample.host new_world Sample.late_selection)) = true
  /\ isOpen (dlg (run Sample.host new_world Sample.late_selection)) = false
  /\ isProcessing
       (dlg (run Sample.host new_world [FileSelect (Some [Sample.png "a.png"])]))
     = true
  /\ isOpen
       (dlg (run Sample.host new_world [FileSelect (Some [Sample.png "a.png"])]))
     = false.
Proof. repeat split. Qed.

(* ================================================================== *)
(** * Further properties of the code *)

(** ** Tab title *)

Lemma strip_extension_splits (s : string) :
  exists suffix,
    s = strip_extension s ++ suffix
    /\ (suffix = "" \/ exists ext, suffix = String "."%char ext).
Proof.
  induction s as [|c s IH].
  - exists "". split; [reflexivity | now left].
  - cbn [strip_extension]. destruct (matches_here (String c s)) eqn:E.
    + apply matches_here_all_chars in E as (ext & Heq & _).
      exists (String c s). split; [reflexivity|]. right. exists ext. exact Heq.
    + destruct IH as (suffix & Heq & Hs). exists suffix.
      split; [|exact Hs]. simpl. now rewrite <- Heq.
Qed.

(** X1.  The tab title is never empty: it is the default title, or a
    non-empty prefix of the file name, and what is cut off is nothing or
    starts with a dot. *)
Theorem tabName_nonempty_prefix (filename : string) :
  tabName filename <> ""
  /\ (tabName filename = "Imported Workflow"
      \/ exists suffix,
          filename = tabName filename ++ suffix
          /\ (suffix = "" \/ exists ext, suffix = String "."%char ext)).
Proof.
  unfold tabName.
  destruct (String.eqb_spec (strip_extension filename) "") as [E | E].
  - split; [discriminate | now left].
  - split; [exact E|]. right. apply strip_extension_splits.
Qed.

(** ** Extraction client: the remaining kinds of body *)

Section ExtractionBodies.

Variable host : Host.

(** X2.  On a success status with a body object whose [success] is truthy,
    the reply is a success that carries the body's [workflow], [prompt] and
    [info] as they are ([undefined] when absent); [success] need not be the
    boolean [true]. *)
Theorem extract_response_success_body (st : nat) (fields : list (string * JSValue)) :
  truthy (lookup "success" fields) = true ->
  extract_response host (Returned (mkResponse true st (Returned (JObj fields))))
  = Returned (mkReply true JUndefined (lookup "workflow" fields)
                      (lookup "prompt" fields) (lookup "info" fields)).
Proof.
  intros Hs. unfold extract_response. simpl. now rewrite Hs.
Qed.

(** X3.  A success status whose body is not an object never reaches the
    loader: [null] makes the property access throw, which is reported as
    "Extraction failed: <message of the TypeError>", and a number, a string,
    a boolean or an array has no [success] and is reported as "No workflow
    found in image". *)
Theorem extract_response_body_not_object (st : nat) (body : JSValue) :
  (forall fields, body <> JObj fields) ->
  extract_response host (Returned (mkResponse true st (Returned body)))
  = Returned (failure
      (match body with
       | JNull | JUndefined =>
           JStr ("Extraction failed: " ++ TypeError_message host body "success")
       | _ => JStr "No workflow found in image"
       end)).
Proof.
  intros Hno. destruct body; try reflexivity.
  now destruct (Hno fields).
Qed.

End ExtractionBodies.

Lemma extract_response_success_body_witness :
  extract_response Sample.host
    (Returned (mkResponse true 200 (Returned Sample.body_graph)))
  = Returned (mkReply true JUndefined Sample.graph Sample.api_prompt JUndefined).
Proof.
  apply (@extract_response_success_body Sample.host 200
           [("success", JBool true); ("workflow", Sample.graph);
            ("prompt", Sample.api_prompt)]).
  reflexivity.
Defined.

Lemma extract_response_body_not_object_witness :
  extract_response Sample.host (Returned (mkResponse true 200 (Returned JNull)))
  = Returned (failure (JStr "Extraction failed: Cannot read properties of null (reading 'success')"))
  /\ extract_response Sample.host
       (Returned (mkResponse true 200 (Returned (JArr []))))
     = Returned (failure (JStr "No workflow found in image")).
Proof.
  split.
  - apply (@extract_response_body_not_object Sample.host 200 JNull). discriminate.
  - apply (@extract_response_body_not_object Sample.host 200 (JArr [])). discriminate.
Defined.

(** ** Loader and per-file processing: what reaches the editor *)

Section EditorCalls.

Variable host : Host.

(** The editor call of [loadWorkflow], if any, and the reply. *)
Lemma loadWorkflow_calls_editor (wf pr : JSValue) (fn : string) (c : Calls) :
  exists reply c',
    loadWorkflow host wf pr fn c = (Returned reply, c')
    /\ fetchLog c' = fetchLog c
    /\ ((loadLog c' = loadLog c /\ success reply = false)
        \/ exists g,
            select_graphData host wf pr = Returned g
            /\ truthy g = true
            /\ loadLog c' = (loadLog c ++ [mkLoadCall g true true (tabName fn)])%list
            /\ (success reply = true
                <-> loadGraphData host (length (loadLog c)) g true true (tabName fn)
                    = Returned tt)).
Proof.
  destruct (select_graphData host wf pr) as [e | g] eqn:Hsel.
  - rewrite (@loadWorkflow_parse_error host wf pr e fn c Hsel).
    do 2 eexists. split; [reflexivity|]. split; [reflexivity|]. left. now split.
  - destruct (truthy g) eqn:Hg.
    + rewrite (@loadWorkflow_selected host wf pr g fn c Hsel Hg).
      destruct (loadGraphData host (length (loadLog c)) g true true (tabName fn))
        as [e | []] eqn:Hcall;
        do 2 eexists; (split; [reflexivity|]); (split; [reflexivity|]); right;
        exists g; rewrite Hcall; repeat split; try assumption;
        intros H; first [reflexivity | discriminate H].
    + rewrite (@loadWorkflow_falsy_graph host wf pr g fn c Hsel Hg).
      do 2 eexists. split; [reflexivity|]. split; [reflexivity|]. left. now split.
Qed.

(** X4.  [loadWorkflow] calls the editor at most once, with a truthy graph,
    the flags [true, true] and the derived title, and leaves the extraction
    log alone.  It reports success exactly when it made that call and the
    call returned; a reply without a call is a failure. *)
Theorem loadWorkflow_editor_call (wf pr : JSValue) (fn : string) (c : Calls) :
  exists reply c',
    loadWorkflow host wf pr fn c = (Returned reply, c')
    /\ fetchLog c' = fetchLog c
    /\ ((loadLog c' = loadLog c /\ success reply = false)
        \/ exists g,
            select_graphData host wf pr = Returned g
            /\ truthy g = true
            /\ loadLog c' = (loadLog c ++ [mkLoadCall g true true (tabName fn)])%list
            /\ (success reply = true
                <-> loadGraphData host (length (loadLog c)) g true true (tabName fn)
                    = Returned tt)).
Proof. apply loadWorkflow_calls_editor. Qed.

(** The same, counted. *)
Lemma loadWorkflow_load_count (wf pr : JSValue) (fn : string) (c : Calls) :
  exists reply c',
    loadWorkflow host wf pr fn c = (Returned reply, c')
    /\ fetchLog c' = fetchLog c
    /\ length (loadLog c) <= length (loadLog c') <= S (length (loadLog c))
    /\ (success reply = true -> length (loadLog c') = S (length (loadLog c))).
Proof.
  destruct (loadWorkflow_calls_editor wf pr fn c)
    as (reply & c' & E & Hf & [(Hl & Hs) | (g & _ & _ & Hl & _)]);
    exists reply, c'; (split; [exact E|]); (split; [exact Hf|]); rewrite Hl.
  - split; [lia|]. congruence.
  - rewrite length_app. simpl. split; lia.
Qed.

Lemma processImageFile_settled_load_count (file : File) (p : Res Response) (c : Calls) :
  exists reply c',
    processImageFile_settled host file p c = (Returned reply, c')
    /\ fetchLog c' = fetchLog c
    /\ length (loadLog c) <= length (loadLog c') <= S (length (loadLog c))
    /\ (success reply = true -> length (loadLog c') = S (length (loadLog c))).
Proof.
  unfold processImageFile_settled, bindM, lift.
  destruct (extract_response_returns host p) as [r ->].
  destruct (success r) eqn:Hr; simpl.
  - apply loadWorkflow_load_count.
  - unfold ret. exists (failure (error r)), c.
    repeat split; try lia. discriminate.
Qed.

(** X5.  [processImageFile] never throws.  It issues exactly one extraction
    request, for its file; when the extraction fails it returns that failure
    and the editor is not called; otherwise the editor is called at most
    once, and the reply is a success only if it was called. *)
Theorem processImageFile_calls (file : File) (c : Calls) :
  exists reply c',
    processImageFile host file c = (Returned reply, c')
    /\ fetchLog c' = (fetchLog c ++ [file])%list
    /\ length (loadLog c) <= length (loadLog c') <= S (length (loadLog c))
    /\ (success reply = true -> length (loadLog c') = S (length (loadLog c)))
    /\ (forall r,
           extract_response host (fetchApi host (length (fetchLog c)) file)
           = Returned r ->
           success r = false ->
           reply = failure (error r) /\ loadLog c' = loadLog c).
Proof.
  unfold processImageFile, extract_request.
  set (c1 := mkCalls (fetchLog c ++ [file]) (loadLog c)).
  destruct (processImageFile_settled_load_count file
              (fetchApi host (length (fetchLog c)) file) c1)
    as (reply & c' & E & Hf & Hl & Hs).
  exists reply, c'. rewrite E. split; [reflexivity|].
  split; [exact Hf|]. split; [exact Hl|]. split; [exact Hs|].
  intros r Hr Hfail. revert E.
  unfold processImageFile_settled, bindM, lift, ret. rewrite Hr, Hfail. simpl.
  intros E. injection E as <- <-. split; reflexivity.
Qed.

End EditorCalls.

Lemma processImageFile_calls_witness :
  processImageFile Sample.host (Sample.png "a1111.png") (mkCalls [] [])
  = (Returned (failure (JStr "only Automatic1111 parameters found")),
     mkCalls [Sample.png "a1111.png"] []).
Proof.
  destruct (processImageFile_calls Sample.host (Sample.png "a1111.png")
              (mkCalls [] [])) as (reply & c' & E & Hf & _ & _ & H).
  destruct (H (failure (JStr "only Automatic1111 parameters found")))
    as (-> & Hl); [reflexivity | reflexivity |].
  rewrite E. f_equal. destruct c' as [fl ll]. simpl in Hf, Hl. now subst.
Defined.

(** ** Submitting a batch *)

Section Submission.

Variable host : Host.

Lemma filter_is_image_again (files : list File) :
  filter is_image (filter is_image files) = filter is_image files.
Proof.
  induction files as [|f files IH]; [reflexivity|].
  simpl. destruct (is_image f) eqn:E; [|exact IH].
  simpl. now rewrite E, IH.
Qed.

(** X6.  Entries that are not images play no part in a batch: with at least
    one image in the selection, submitting the selection and submitting only
    its images give the same world. *)
Theorem run_batch_ignores_other_files (files : list File) (w : World) :
  filter is_image files <> [] ->
  run_batch host files w = run_batch host (filter is_image files) w.
Proof.
  intros Hne. unfold run_batch. rewrite filter_is_image_again. f_equal.
  destruct files as [|f files]; [reflexivity|].
  destruct (filter is_image (f :: files)) as [|g gs] eqn:Himgs; [congruence|].
  assert (Hgs : filter is_image (g :: gs) = g :: gs)
    by (rewrite <- Himgs; apply filter_is_image_again).
  unfold handleFileSelect. now rewrite Himgs, Hgs.
Qed.

(** The world in which an accepted selection leaves the dialog. *)
Lemma handleFileSelect_suspends (fs : list File) (g : File) (gs : list File)
  (w : World) :
  isProcessing (dlg w) = false ->
  filter is_image fs = g :: gs ->
  let w' := handleFileSelect host (Some fs) w in
  isProcessing (dlg w') = true
  /\ isOpen (dlg w') = isOpen (dlg w)
  /\ statusEl (dlg w')
     = (if built (dlg w)
        then Some (shown ("Processing: " ++ name g ++ "...") "info")
        else None)
  /\ fetchLog (calls w') = (fetchLog (calls w) ++ [g])%list
  /\ loadLog (calls w') = loadLog (calls w)
  /\ batches w'
     = (batches w
        ++ [mkBatch (g :: gs) g (fetchApi host (length (fetchLog (calls w))) g)
                    gs 0 0 []])%list
  /\ timers w' = timers w
  /\ completed w' = completed w.
Proof.
  intros Hidle Himgs w'. subst w'.
  rewrite (handleFileSelect_starts host fs w Hidle Himgs).
  set (w0 := report _ "info" (with_dlg (set_isProcessing true) w)).
  destruct (loop_suspends host (length (batches w)) (g :: gs) gs g 0 0 [] w0)
    as ((A1 & A2 & _ & _) & L2 & L3 & L4 & L5 & L6).
  destruct (showStatus_flags
              ("Processing " ++ nat_to_string (length (g :: gs)) ++ " image(s)...")
              "info" (set_isProcessing true (dlg w))) as (B1 & B2 & _ & B4).
  repeat apply conj.
  - rewrite A2. exact B2.
  - rewrite A1. exact B1.
  - unfold loop, report, extract_request, with_batches, with_calls, with_dlg.
    cbn [dlg]. rewrite showStatus_statusEl. subst w0.
    unfold report, with_dlg. cbn [dlg]. now rewrite B4.
  - exact L5.
  - exact L6.
  - rewrite L2. change (batches w0) with (batches w). apply put_end.
  - exact L3.
  - exact L4.
Qed.

(** X7.  When a selection with an image is accepted, the call returns with
    [isProcessing] set, the status line naming the first image (the line
    with the number of images is overwritten before anything else can run),
    one extraction request issued, for the first image only, no editor call
    yet, and the invocation suspended after the ones already in flight. *)
Theorem handleFileSelect_accepts (fs : list File) (g : File) (gs : list File)
  (w : World) :
  isProcessing (dlg w) = false ->
  filter is_image fs = g :: gs ->
  let w' := handleFileSelect host (Some fs) w in
  isProcessing (dlg w') = true
  /\ isOpen (dlg w') = isOpen (dlg w)
  /\ statusEl (dlg w')
     = (if built (dlg w)
        then Some (shown ("Processing: " ++ name g ++ "...") "info")
        else None)
  /\ fetchLog (calls w') = (fetchLog (calls w) ++ [g])%list
  /\ loadLog (calls w') = loadLog (calls w)
  /\ batches w'
     = (batches w
        ++ [mkBatch (g :: gs) g (fetchApi host (length (fetchLog (calls w))) g)
                    gs 0 0 []])%list
  /\ timers w' = timers w
  /\ completed w' = completed w.
Proof.
  intros Hidle Himgs. exact (handleFileSelect_suspends fs w Hidle Himgs).
Qed.

(** X8.  The guard on [isProcessing] does not survive a [show] or a
    [close]: both reset the flag while the invocations in flight stay
    suspended, so the next selection with an image is accepted and runs
    beside them. *)
Theorem reopened_dialog_accepts_second_batch (e : Event) (fs : list File)
  (g : File) (gs : list File) (w : World) :
  e = Show \/ e = Close ->
  filter is_image fs = g :: gs ->
  let w' := handleFileSelect host (Some fs) (step host w e) in
  isProcessing (dlg w') = true
  /\ batches w'
     = (batches w
        ++ [mkBatch (g :: gs) g (fetchApi host (length (fetchLog (calls w))) g)
                    gs 0 0 []])%list
  /\ length (batches w') = S (length (batches w))
  /\ fetchLog (calls w') = (fetchLog (calls w) ++ [g])%list.
Proof.
  intros He Himgs w'.
  assert (Hidle : isProcessing (dlg (step host w e)) = false)
    by (destruct He as [-> | ->]; reflexivity).
  assert (Hb : batches (step host w e) = batches w)
    by (destruct He as [-> | ->]; reflexivity).
  assert (Hc : calls (step host w e) = calls w)
    by (destruct He as [-> | ->]; reflexivity).
  destruct (handleFileSelect_suspends fs (step host w e) Hidle Himgs)
    as (H1 & _ & _ & H4 & _ & H6 & _).
  fold w' in H1, H4, H6. rewrite Hb, Hc in *.
  repeat split; try assumption.
  rewrite H6, length_app. simpl. lia.
Qed.

Lemma with_calls_same (w : World) : with_calls (calls w) w = w.
Proof. now destruct w. Qed.

(** X9.  When the service answers a file with [{success: false, error}] and
    a non-empty text, the invocation counts one failure, records the line
    "<file name>: <error>" with the service's text unchanged, makes no
    editor call, and goes on with the next file. *)
Theorem settle_records_service_error (i st : nat) (w : World) (b : Batch)
  (fields : list (string * JSValue)) (reason : string) :
  nth_error (batches w) i = Some b ->
  pending b = Returned (mkResponse true st (Returned (JObj fields))) ->
  lookup "success" fields = JBool false ->
  lookup "error" fields = JStr reason ->
  reason <> "" ->
  settle host i w
  = loop host i (imageFiles b) (rest b) (successCount b) (S (failCount b))
         (errors b ++ [(name (current b) ++ ": " ++ reason)%string])%list w.
Proof.
  intros Hn Hp Hs He Hne. unfold settle. rewrite Hn.
  unfold processImageFile_settled, bindM, lift, ret, extract_response. rewrite Hp.
  simpl. rewrite Hs. simpl. rewrite He. unfold or_else.
  rewrite (proj2 (truthy_JStr reason) Hne). simpl.
  now rewrite with_calls_same.
Qed.

End Submission.

Lemma run_batch_ignores_other_files_witness :
  run_batch Sample.host [Sample.notes; Sample.png "a.png"; Sample.notes] Sample.opened
  = run_batch Sample.host [Sample.png "a.png"] Sample.opened.
Proof.
  apply (@run_batch_ignores_other_files Sample.host
           [Sample.notes; Sample.png "a.png"; Sample.notes] Sample.opened).
  discriminate.
Defined.

Lemma handleFileSelect_accepts_witness :
  statusEl (dlg (handleFileSelect Sample.host
                   (Some [Sample.notes; Sample.png "a.png"; Sample.png "b.png"])
                   Sample.opened))
  = Some (shown "Processing: a.png..." "info")
  /\ fetchLog (calls (handleFileSelect Sample.host
                        (Some [Sample.notes; Sample.png "a.png"; Sample.png "b.png"])
                        Sample.opened))
     = [Sample.png "a.png"].
Proof.
  destruct (@handleFileSelect_accepts Sample.host
              [Sample.notes; Sample.png "a.png"; Sample.png "b.png"]
              (Sample.png "a.png") [Sample.png "b.png"] Sample.opened)
    as (_ & _ & H3 & H4 & _); [reflexivity | reflexivity |].
  split; [exact H3 | exact H4].
Defined.

Lemma reopened_dialog_accepts_second_batch_witness :
  length (batches (handleFileSelect Sample.host (Some [Sample.png "b.png"])
                     (step Sample.host Sample.busy Show))) = 2
  /\ isProcessing (dlg (handleFileSelect Sample.host (Some [Sample.png "b.png"])
                          (step Sample.host Sample.busy Close))) = true.
Proof.
  split.
  - destruct (@reopened_dialog_accepts_second_batch Sample.host Show
                [Sample.png "b.png"] (Sample.png "b.png") [] Sample.busy)
      as (_ & _ & H & _); [now left | reflexivity | exact H].
  - destruct (@reopened_dialog_accepts_second_batch Sample.host Close
                [Sample.png "b.png"] (Sample.png "b.png") [] Sample.busy)
      as (H & _); [now right | reflexivity | exact H].
Defined.

Lemma settle_records_service_error_witness :
  o_errors (last (completed
     (settle Sample.host 0
        (handleFileSelect Sample.host (Some [Sample.png "a1111.png"]) Sample.opened)))
     (mkOutcome [] 0 0 []))
  = ["a1111.png: only Automatic1111 parameters found"].
Proof.
  rewrite (@settle_records_service_error Sample.host 0 200
             (handleFileSelect Sample.host (Some [Sample.png "a1111.png"])
                Sample.opened)
             (mkBatch [Sample.png "a1111.png"] (Sample.png "a1111.png")
                (Sample.service 0 (Sample.png "a1111.png")) [] 0 0 [])
             [("success", JBool false);
              ("error", JStr "only Automatic1111 parameters found")]
             "only Automatic1111 parameters found");
    [reflexivity | reflexivity | reflexivity | reflexivity | reflexivity | discriminate].
Defined.

(** ** In-flight work and the dialog *)

Ltac work_tac :=
  unfold same_work in *; simpl in *; intuition (try congruence).

Section InFlight.

Variable host : Host.

Lemma finish_work_cong (s f : nat) (errs : list string) (w1 w2 : World) :
  same_work w1 w2 -> same_work (finish s f errs w1) (finish s f errs w2).
Proof.
  intros H. unfold finish, report, with_timers, with_dlg.
  destruct ((0 <? s) && (f =? 0))%nat; [|destruct ((0 <? s) && (0 <? f))%nat];
    unfold same_work in *; cbn [calls batches timers completed];
    intuition congruence.
Qed.

Lemma loop_work_cong (i : nat) (imgs remaining : list File) (s f : nat)
  (errs : list string) (w1 w2 : World) :
  same_work w1 w2 ->
  same_work (loop host i imgs remaining s f errs w1)
            (loop host i imgs remaining s f errs w2).
Proof.
  intros H. destruct remaining as [|file r]; unfold loop.
  - apply finish_work_cong.
    unfold same_work, with_completed, with_batches in *.
    cbn [calls batches timers completed]. intuition congruence.
  - unfold report, extract_request, with_batches, with_calls, with_dlg.
    unfold same_work in *. cbn [calls batches timers completed dlg].
    destruct H as (-> & -> & -> & ->). repeat split.
Qed.

Lemma settle_work_cong (i : nat) (w1 w2 : World) :
  same_work w1 w2 -> same_work (settle host i w1) (settle host i w2).
Proof.
  intros H. unfold settle.
  assert (Hb : batches w2 = batches w1) by apply H.
  assert (Hc : calls w2 = calls w1) by apply H.
  rewrite Hb, Hc. destruct (nth_error (batches w1) i) as [b|]; [|exact H].
  destruct (processImageFile_settled host (current b) (pending b) (calls w1))
    as [[e|r] c]; [|destruct (success r)]; apply loop_work_cong;
    unfold same_work, with_calls in *; cbn [calls batches timers completed];
    intuition congruence.
Qed.

Lemma run_work_cong (es : list Event) :
  forall w1 w2 : World,
    same_work w1 w2 ->
    forallb (fun e => is_settle e || is_dialog_event e) es = true ->
    same_work (run host w1 (filter is_settle es)) (run host w2 es).
Proof.
  induction es as [|e es IH]; intros w1 w2 H Hes; [exact H|].
  simpl in Hes. apply andb_true_iff in Hes as [He Hes].
  destruct e; try discriminate He; simpl.
  - apply IH; [|exact Hes]. unfold same_work, with_dlg in *. simpl. exact H.
  - apply IH; [|exact Hes]. unfold same_work, with_dlg in *. simpl. exact H.
  - apply IH; [|exact Hes]. unfold same_work, with_dlg in *. simpl. exact H.
  - apply IH; [|exact Hes]. now apply settle_work_cong.
Qed.

(** X10.  Opening, closing or toggling the dialog while batches are in
    flight cancels nothing and changes nothing of their work: along a trace
    of such events and resumptions, the extraction and editor calls, the
    suspended invocations, the pending timers and the counts of the finished
    batches are those of the resumptions alone. *)
Theorem dialog_events_leave_work_alone (es : list Event) (w : World) :
  forallb (fun e => is_settle e || is_dialog_event e) es = true ->
  same_work (run host w (filter is_settle es)) (run host w es).
Proof.
  apply run_work_cong. unfold same_work. repeat split.
Qed.

(** *** The overlay and the flag [isOpen] *)

Lemma showStatus_shell (m t : string) (d : Dialog) : shell (showStatus m t d) = shell d.
Proof. now destruct d as [o p od [el|]]. Qed.

Lemma finish_shell (s f : nat) (errs : list string) (w : World) :
  shell (dlg (finish s f errs w)) = shell (dlg w).
Proof.
  unfold finish, report, with_timers, with_dlg.
  destruct ((0 <? s) && (f =? 0))%nat; [|destruct ((0 <? s) && (0 <? f))%nat];
    cbn [dlg]; now rewrite showStatus_shell.
Qed.

Lemma loop_shell (i : nat) (imgs remaining : list File) (s f : nat)
  (errs : list string) (w : World) :
  shell (dlg (loop host i imgs remaining s f errs w)) = shell (dlg w).
Proof.
  destruct remaining as [|file r]; unfold loop.
  - now rewrite finish_shell.
  - unfold report, extract_request, with_batches, with_calls, with_dlg.
    cbn [dlg]. apply showStatus_shell.
Qed.

Lemma handleFileSelect_shell (files : option (list File)) (w : World) :
  shell (dlg (handleFileSelect host files w)) = shell (dlg w).
Proof.
  destruct files as [[|f fs]|]; try reflexivity.
  unfold handleFileSelect. destruct (isProcessing (dlg w)).
  - apply showStatus_shell.
  - destruct (filter is_image (f :: fs)) as [|g gs].
    + apply showStatus_shell.
    + cbv zeta. rewrite loop_shell. unfold report, with_dlg. cbn [dlg].
      now rewrite showStatus_shell.
Qed.

Lemma settle_shell (i : nat) (w : World) :
  shell (dlg (settle host i w)) = shell (dlg w).
Proof.
  unfold settle. destruct (nth_error (batches w) i) as [b|]; [|reflexivity].
  destruct (processImageFile_settled host (current b) (pending b) (calls w))
    as [[e|r] c]; [|destruct (success r)]; now rewrite loop_shell.
Qed.

Lemma dialog_consistent_shell (d d' : Dialog) :
  shell d' = shell d -> dialog_consistent d -> dialog_consistent d'.
Proof.
  unfold shell, dialog_consistent. intros E. injection E as -> -> ->. auto.
Qed.

Lemma step_consistent (e : Event) (w : World) :
  dialog_consistent (dlg w) -> dialog_consistent (dlg (step host w e)).
Proof.
  intros H. destruct e; simpl.
  - unfold toggle. destruct (isOpen (dlg w)); split; simpl; intros;
      try discriminate; auto.
  - split; simpl; intros; try discriminate; auto.
  - split; simpl; intros; try discriminate; auto.
  - eapply dialog_consistent_shell; [apply handleFileSelect_shell | exact H].
  - eapply dialog_consistent_shell; [apply settle_shell | exact H].
  - unfold timeout. destruct (nth_error (timers w) i); [|exact H].
    split; simpl; intros; try discriminate; auto.
Qed.

(** X11.  Whatever happens to a dialog after its construction, the overlay
    is displayed exactly while [isOpen] is set, and an open dialog has its
    status element, so that a message reported while it is open is written
    to the page. *)
Theorem overlay_follows_isOpen (es : list Event) :
  dialog_consistent (dlg (run host new_world es)).
Proof.
  assert (H : forall w, dialog_consistent (dlg w) ->
                        dialog_consistent (dlg (run host w es))).
  { induction es as [|e es IH]; intros w Hw; [exact Hw|].
    simpl. apply IH. now apply step_consistent. }
  apply H. split; simpl; intros; try discriminate.
Qed.

End InFlight.

Lemma dialog_events_leave_work_alone_witness :
  completed (run Sample.host Sample.busy [Close; Settle 0; Show])
  = completed (run Sample.host Sample.busy [Settle 0])
  /\ calls (run Sample.host Sample.busy [Close; Settle 0; Show])
     = calls (run Sample.host Sample.busy [Settle 0]).
Proof.
  destruct (@dialog_events_leave_work_alone Sample.host [Close; Settle 0; Show]
              Sample.busy) as (H1 & _ & _ & H4); [reflexivity|].
  split; [exact H4 | exact H1].
Defined.

(** ** Accounting of the calls *)

Section TotalFacts.

Context {A : Type} (g : A -> nat).

Lemma total_snoc (l : list A) (x : A) : total g (l ++ [x])%list = total g l + g x.
Proof.
  unfold total. rewrite map_app, list_sum_app. simpl. lia.
Qed.

Lemma total_drop_at (i : nat) (l : list A) (x : A) :
  nth_error l i = Some x -> total g (drop_at i l) + g x = total g l.
Proof.
  unfold total. revert i. induction l as [|y l IH]; intros i Hn.
  - destruct i; discriminate.
  - destruct i as [|i]; simpl in *.
    + injection Hn as ->. lia.
    + specialize (IH i Hn). lia.
Qed.

Lemma length_drop_at (i : nat) (l : list A) (x : A) :
  nth_error l i = Some x -> S (length (drop_at i l)) = length l.
Proof.
  revert i. induction l as [|y l IH]; intros i Hn.
  - destruct i; discriminate.
  - destruct i as [|i]; simpl in *; [reflexivity|].
    now rewrite (IH i Hn).
Qed.

Lemma length_drop_at_le (i : nat) (l : list A) : length (drop_at i l) <= length l.
Proof.
  revert i. induction l as [|y l IH]; intros i; [destruct i; simpl; lia|].
  destruct i as [|i]; simpl; [lia|]. specialize (IH i). lia.
Qed.

End TotalFacts.

Lemma total_put (g : Batch -> nat) (i : nat) (l : list Batch) (b b' : Batch) :
  nth_error l i = Some b -> total g (put i b' l) + g b = total g l + g b'.
Proof.
  unfold total. revert i. induction l as [|y l IH]; intros i Hn.
  - destruct i; discriminate.
  - destruct i as [|i]; simpl in *.
    + injection Hn as ->. lia.
    + specialize (IH i Hn). lia.
Qed.

Lemma length_put (i : nat) (l : list Batch) (b b' : Batch) :
  nth_error l i = Some b -> length (put i b' l) = length l.
Proof.
  revert i. induction l as [|y l IH]; intros i Hn.
  - destruct i; discriminate.
  - destruct i as [|i]; simpl in *; [reflexivity|].
    now rewrite (IH i Hn).
Qed.

Section Accounting.

Variable host : Host.

(** The loop head, seen through the counters of the invariant, for the
    invocation [b] kept at index [i]. *)
Lemma loop_accounted (i : nat) (b : Batch) (s f : nat) (errs : list string)
  (c : Calls) (w : World) :
  nth_error (batches w) i = Some b ->
  accounted w ->
  fetchLog c = fetchLog (calls w) ->
  s + length errs = S (successCount b + length (errors b)) ->
  successCount b <= s -> length (errors b) <= length errs ->
  length (loadLog (calls w)) <= length (loadLog c) <= S (length (loadLog (calls w))) ->
  (s = S (successCount b) -> length (loadLog c) = S (length (loadLog (calls w)))) ->
  accounted (loop host i (imageFiles b) (rest b) s f errs (with_calls c w)).
Proof.
  intros Hn (I1 & I2 & I3) Hf Hsum Hs Hs' Hl Hl'.
  pose proof (total_drop_at requested i (batches w) Hn) as D1.
  pose proof (total_drop_at successCount i (batches w) Hn) as D2.
  pose proof (length_drop_at i (batches w) Hn) as D3.
  assert (Rb : requested b = S (successCount b + length (errors b))) by reflexivity.
  rewrite Rb in D1.
  destruct (rest b) as [|file r].
  - unfold loop, accounted.
    destruct (finish_keeps s f errs
                (with_completed (mkOutcome (imageFiles b) s f errs)
                   (with_batches (drop_at i) (with_calls c w)))) as (-> & -> & ->).
    cbn [calls batches completed with_completed with_batches with_calls].
    rewrite !total_snoc.
    change (processed (mkOutcome (imageFiles b) s f errs)) with (s + length errs).
    cbn [o_successCount]. rewrite Hf. lia.
  - destruct (loop_suspends host i (imageFiles b) r file s f errs (with_calls c w))
      as (_ & L2 & _ & L4 & L5 & L6).
    unfold accounted. rewrite L2, L4, L5, L6.
    cbn [calls batches completed with_calls].
    set (b' := mkBatch _ _ _ _ _ _ _).
    assert (R' : requested b' = S (s + length errs)) by reflexivity.
    assert (S' : successCount b' = s) by reflexivity.
    clearbody b'.
    pose proof (total_put requested i (batches w) b' Hn) as P1.
    pose proof (total_put successCount i (batches w) b' Hn) as P2.
    pose proof (length_put i (batches w) b' Hn) as P3.
    rewrite Rb, R' in P1. rewrite S' in P2.
    rewrite P3, length_app, Hf. simpl length. lia.
Qed.

(** A success is counted only for a reply that is one. *)
Lemma iteration_success (file : File) (r : Reply) (k : Counters) :
  successes (iteration host file (Returned r) k) = S (successes k) ->
  success r = true.
Proof.
  unfold iteration, count_result, count_thrown.
  destruct (success r); [reflexivity|].
  destruct (ToString host (error r)); cbn; lia.
Qed.

Lemma settle_accounted (i : nat) (w : World) :
  accounted w -> accounted (settle host i w).
Proof.
  intros Hw. unfold settle.
  destruct (nth_error (batches w) i) as [b|] eqn:Hn; [|exact Hw].
  destruct (processImageFile_settled_load_count host (current b) (pending b) (calls w))
    as (reply & c & -> & Hf & Hl & Hs).
  cbv zeta.
  pose proof (@iteration_success (current b) reply
                (mkCounters (successCount b) (failCount b) (errors b))) as Hok.
  destruct (iteration_counts host (current b) (Returned reply)
              (mkCounters (successCount b) (failCount b) (errors b)))
    as [(A1 & _ & A3) | (A1 & _ & reason & A3)];
    cbn [successes lines] in A1, A3, Hok.
  - apply loop_accounted; auto; rewrite ?A1, ?A3; lia.
  - apply loop_accounted; auto; rewrite ?A1, ?A3, ?length_app; simpl; try lia.
Qed.

Lemma handleFileSelect_accounted (files : option (list File)) (w : World) :
  accounted w -> accounted (handleFileSelect host files w).
Proof.
  intros Hw. destruct files as [[|f fs]|]; try exact Hw.
  destruct (isProcessing (dlg w)) eqn:Hp.
  - unfold handleFileSelect. rewrite Hp. exact Hw.
  - destruct (filter is_image (f :: fs)) as [|g gs] eqn:Himgs.
    + unfold handleFileSelect. rewrite Hp, Himgs. exact Hw.
    + destruct (handleFileSelect_suspends host (f :: fs) w Hp Himgs)
        as (_ & _ & _ & H4 & H5 & H6 & _ & H8).
      destruct Hw as (I1 & I2 & I3). unfold accounted.
      rewrite H4, H5, H6, H8, !length_app, !total_snoc.
      unfold requested at 2. simpl. lia.
Qed.

Lemma step_accounted (e : Event) (w : World) :
  accounted w -> accounted (step host w e).
Proof.
  intros Hw. destruct e; simpl; try exact Hw.
  - now apply handleFileSelect_accounted.
  - now apply settle_accounted.
  - unfold timeout. destruct (nth_error (timers w) i); exact Hw.
Qed.

(** X12.  Whatever the interleaving of selections, resumptions, timers and
    dialog events: the extraction requests made are one per file that a
    batch is done with (a success or an error line) plus one per batch in
    flight; every success that a batch has counted stands for an editor
    call; and the editor has not been called more often than extractions
    have been requested. *)
Theorem calls_are_accounted (es : list Event) :
  let w := run host new_world es in
  length (fetchLog (calls w))
  = total requested (batches w) + total processed (completed w)
  /\ total successCount (batches w) + total o_successCount (completed w)
     <= length (loadLog (calls w))
  /\ length (loadLog (calls w)) <= length (fetchLog (calls w)).
Proof.
  assert (H : forall w, accounted w -> accounted (run host w es)).
  { induction es as [|e es IH]; intros w Hw; [exact Hw|].
    simpl. apply IH. now apply step_accounted. }
  destruct (H new_world) as (H1 & H2 & H3).
  { unfold accounted, total. simpl. lia. }
  cbv zeta. split; [exact H1|]. split; [exact H2|]. lia.
Qed.

(** *** Timers *)

Lemma filter_snoc {A} (p : A -> bool) (l : list A) (x : A) :
  length (filter p (l ++ [x])%list)
  = length (filter p l) + (if p x then 1 else 0).
Proof.
  rewrite filter_app, length_app. simpl. destruct (p x); reflexivity.
Qed.

Lemma loop_timers (i : nat) (imgs remaining : list File) (s f : nat)
  (errs : list string) (w : World) :
  length (timers w) <= length (filter all_succeeded (completed w)) ->
  length (timers (loop host i imgs remaining s f errs w))
  <= length (filter all_succeeded (completed (loop host i imgs remaining s f errs w))).
Proof.
  intros Hw. destruct remaining as [|file r].
  - unfold loop.
    destruct (finish_keeps s f errs
                (with_completed (mkOutcome imgs s f errs)
                   (with_batches (drop_at i) w))) as (_ & -> & _).
    cbn [completed with_completed]. rewrite filter_snoc.
    unfold all_succeeded at 2. cbn [o_successCount o_failCount].
    unfold finish, report, with_timers, with_dlg.
    destruct ((0 <? s) && (f =? 0))%nat; [|destruct ((0 <? s) && (0 <? f))%nat];
      cbn [timers with_completed with_batches]; try rewrite length_app;
      simpl length; lia.
  - destruct (loop_suspends host i imgs r file s f errs w) as (_ & _ & -> & -> & _).
    exact Hw.
Qed.

Lemma step_timers (e : Event) (w : World) :
  length (timers w) <= length (filter all_succeeded (completed w)) ->
  length (timers (step host w e))
  <= length (filter all_succeeded (completed (step host w e))).
Proof.
  intros Hw. destruct e; simpl; try exact Hw.
  - destruct files as [[|f fs]|]; try exact Hw.
    unfold handleFileSelect. destruct (isProcessing (dlg w)); [exact Hw|].
    destruct (filter is_image (f :: fs)); [exact Hw|].
    cbv zeta. apply loop_timers. exact Hw.
  - unfold settle. destruct (nth_error (batches w) i) as [b|]; [|exact Hw].
    destruct (processImageFile_settled host (current b) (pending b) (calls w))
      as [[e|r] c]; [|destruct (success r)]; apply loop_timers; exact Hw.
  - unfold timeout. destruct (nth_error (timers w) i); [|exact Hw].
    cbn [timers completed with_dlg with_timers].
    pose proof (length_drop_at_le i (timers w)). lia.
Qed.

(** X13.  The dialog never schedules its automatic close for a batch that
    had a failure: at any moment the pending timers are at most as many as
    the batches that have finished with successes only. *)
Theorem timers_only_for_clean_batches (es : list Event) :
  length (timers (run host new_world es))
  <= length (filter all_succeeded (completed (run host new_world es))).
Proof.
  assert (H : forall w,
             length (timers w) <= length (filter all_succeeded (completed w)) ->
             length (timers (run host w es))
             <= length (filter all_succeeded (completed (run host w es)))).
  { induction es as [|e es IH]; intros w Hw; [exact Hw|].
    simpl. apply IH. now apply step_timers. }
  apply H. simpl. lia.
Qed.

End Accounting.

(** ** One batch after another *)

Section Sequence.

Variable host : Host.

(** What an uninterrupted batch leaves behind. *)
Lemma run_batch_summary (files : list File) (w : World) :
  isProcessing (dlg w) = false ->
  filter is_image files <> [] ->
  exists o,
    completed (run_batch host files w) = (completed w ++ [o])%list
    /\ o_imageFiles o = filter is_image files
    /\ processed o = length (filter is_image files)
    /\ fetchLog (calls (run_batch host files w))
       = (fetchLog (calls w) ++ filter is_image files)%list
    /\ batches (run_batch host files w) = batches w
    /\ isProcessing (dlg (run_batch host files w)) = false
    /\ shell (dlg (run_batch host files w)) = shell (dlg w).
Proof.
  intros Hidle Hne.
  destruct (run_batch_finishes host files w Hidle Hne)
    as (o & mid & E & Ho & (Hsum & _) & Hopen & Hbuilt & Hb & _ & Hc & Hl).
  destruct (finish_keeps (o_successCount o) (o_failCount o) (o_errors o)
              (with_completed o mid)) as (K1 & K2 & K3).
  destruct (finish_shows (o_successCount o) (o_failCount o) (o_errors o)
              (with_completed o mid)) as (F1 & _).
  exists o. rewrite E, K1, K2, K3, F1.
  cbn [completed batches calls with_completed].
  rewrite Hc, Hb, Hl, <- Ho. repeat split; try assumption.
  rewrite <- E. unfold run_batch.
  assert (Hit : forall n i v, shell (dlg (Nat.iter n (settle host i) v)) = shell (dlg v)).
  { induction n as [|n IH]; intros i v; [reflexivity|].
    simpl. now rewrite settle_shell, IH. }
  now rewrite Hit, handleFileSelect_shell.
Qed.

(** X14.  Batches compose: after a batch has run to its end the dialog
    accepts the next one, and two batches in a row request the images of the
    first selection and then those of the second, each batch ending with one
    success or one error line for each of its own images; no invocation is
    left suspended. *)
Theorem run_batch_twice (files1 files2 : list File) (w : World) :
  isProcessing (dlg w) = false ->
  filter is_image files1 <> [] ->
  filter is_image files2 <> [] ->
  let w2 := run_batch host files2 (run_batch host files1 w) in
  exists o1 o2,
    completed w2 = (completed w ++ [o1; o2])%list
    /\ processed o1 = length (filter is_image files1)
    /\ processed o2 = length (filter is_image files2)
    /\ fetchLog (calls w2)
       = (fetchLog (calls w) ++ filter is_image files1 ++ filter is_image files2)%list
    /\ batches w2 = batches w
    /\ isProcessing (dlg w2) = false.
Proof.
  intros Hidle H1 H2 w2. subst w2.
  destruct (run_batch_summary files1 w Hidle H1)
    as (o1 & C1 & _ & P1 & L1 & B1 & I1 & _).
  destruct (run_batch_summary files2 (run_batch host files1 w) I1 H2)
    as (o2 & C2 & _ & P2 & L2 & B2 & I2 & _).
  exists o1, o2. rewrite C2, C1, L2, L1, B2, B1, <- !app_assoc.
  repeat split; assumption.
Qed.

End Sequence.

Lemma run_batch_twice_witness :
  fetchLog (calls (run_batch Sample.host [Sample.png "c.png"]
                     (run_batch Sample.host [Sample.png "a.png"; Sample.notes]
                        Sample.opened)))
  = [Sample.png "a.png"; Sample.png "c.png"].
Proof.
  destruct (@run_batch_twice Sample.host [Sample.png "a.png"; Sample.notes]
              [Sample.png "c.png"] Sample.opened)
    as (o1 & o2 & _ & _ & _ & H & _);
    [reflexivity | discriminate | discriminate | exact H].
Defined.

(** ** The toolbar button and the shortcut *)

(** X15.  Toggling twice brings [isOpen] back to what it was, and on the way
    the dialog forgets its status: the status element is the fresh, hidden
    and empty one, and [isProcessing] is cleared, whatever was going on. *)
Theorem toggle_twice (d : Dialog) :
  isOpen (toggle (toggle d)) = isOpen d
  /\ isProcessing (toggle (toggle d)) = false
  /\ statusEl (toggle (toggle d)) = Some (mkStatusEl "none" "" "" "#ccc")
  /\ overlay_display (toggle (toggle d)) = if isOpen d then "flex" else "none".
Proof.
  unfold toggle. destruct (isOpen d) eqn:E; simpl; repeat split; auto.
Qed.
